(** * The draft-generation core of the SNS post generator

    A shallow embedding of the worker's orchestration path:
    the [PostDraft] aggregate (src/worker/domain/postDraft.ts), the
    [CreateDraftUseCase] (src/worker/usecases/createDraftUseCase.ts), the
    [DraftGenerationWorkflow] (src/worker/workflows/draftGenerationWorkflow.ts)
    and the two shipped adapters the properties talk about, the
    [QueueImageScheduler] and the [SimpleContentGenerator].

    JavaScript strings are sequences of UTF-16 code units, objects with
    read-only fields are records, an optional field is an [option], and the
    ports are computations over an arbitrary world state that may throw.
    Every call the core makes to a port is appended to a call log, the way a
    spying test double records its calls. *)

From Stdlib Require Import NArith List String Ascii Lia.
From stdpp Require Import base option list gmap.
Import ListNotations.

(** ** Strings *)

(** A string is the list of its UTF-16 code units. *)
Abbreviation jsstring := (list N).

(** An ASCII literal as a string. *)
Definition lit (s : string) : jsstring :=
  List.map N_of_ascii (list_ascii_of_string s).

(** ECMAScript [WhiteSpace] and [LineTerminator] code points: what
    [String.prototype.trim] strips and what the regular expression
    class [\s] matches.  All of them are single code units. *)
Definition isWhiteSpace (c : N) : bool :=
  ((9 <=? c) && (c <=? 13) ||
   (c =? 32) || (c =? 160) || (c =? 5760) ||
   (8192 <=? c) && (c <=? 8202) ||
   (c =? 8232) || (c =? 8233) || (c =? 8239) || (c =? 8287) ||
   (c =? 12288) || (c =? 65279))%N.

Fixpoint trimStart (s : jsstring) : jsstring :=
  match s with
  | [] => []
  | c :: r => if isWhiteSpace c then trimStart r else s
  end.

Definition trimEnd (s : jsstring) : jsstring := rev (trimStart (rev s)).

(** [s.trim()] *)
Definition trim (s : jsstring) : jsstring := trimEnd (trimStart s).

(** [s.replaceAll(/\s+/g, "")]: every maximal run of white space is
    replaced by the empty string, so exactly the white-space code units
    disappear. *)
Definition removeWhiteSpace (s : jsstring) : jsstring :=
  List.filter (fun c => negb (isWhiteSpace c)) s.

(** Truthiness of a string: only the empty string is falsy. *)
Definition truthy (s : jsstring) : bool :=
  match s with [] => false | _ :: _ => true end.

(** Truthiness of [string | undefined]. *)
Definition truthy_opt (o : option jsstring) : bool :=
  match o with Some s => truthy s | None => false end.

(** [o?.trim()] *)
Definition trim_opt (o : option jsstring) : option jsstring :=
  option_map trim o.

(** [o ?? d] *)
Definition nullish {A : Type} (o : option A) (d : A) : A :=
  match o with Some a => a | None => d end.

(** A string without leading or trailing white space. *)
Definition trimmed (s : jsstring) : Prop := trim s = s.

(** ** Effects *)

(** What a [throw] or a rejected promise carries: an [Error] object with
    its message, or any other value, known only by a tag. *)
Inductive Thrown : Type :=
| Error (message : jsstring)
| Rejected (tag : N).

Inductive Outcome (A : Type) : Type :=
| Returned (a : A)
| Threw (e : Thrown).
Arguments Returned {A} a.
Arguments Threw {A} e.

(** State passing with exceptions.  A thrown value keeps the state reached
    so far: nothing is rolled back.  [await] on a promise is sequencing. *)
Definition SE (S A : Type) : Type := S -> Outcome A * S.

Definition ret {S A : Type} (a : A) : SE S A := fun s => (Returned a, s).

Definition throw {S A : Type} (e : Thrown) : SE S A := fun s => (Threw e, s).

Definition bind {S A B : Type} (m : SE S A) (k : A -> SE S B) : SE S B :=
  fun s =>
    match m s with
    | (Returned a, s') => k a s'
    | (Threw e, s') => (Threw e, s')
    end.

Notation "x <- m ;; k" := (bind m (fun x => k))
  (at level 100, m at level 99, right associativity).

(** The result of a computation and the state it leaves. *)
Definition outcome {S A : Type} (r : Outcome A * S) : Outcome A := fst r.
Definition after {S A : Type} (r : Outcome A * S) : S := snd r.

(** A refusal with an [Error] of the given message that leaves the state
    as it was. *)
Definition refusedBy (message : jsstring) {S A : Type} (r : Outcome A * S)
  (s : S) : Prop :=
  r = (Threw (Error message), s).

(** ** Data *)

(** [new Date(..)], seen through the one observation the core makes of
    it, its [toISOString()] text. *)
Module Date.
Record t : Type := mk { toISOString : jsstring }.
End Date.

(** The only status of this core, the string literal type ["draft"]. *)
Inductive Status : Type := draft.

(** postDraft.ts, [DraftProps] (with [DraftContent] folded in). *)
Module DraftProps.
Record t : Type := mk {
    id : option jsstring;
    theme : jsstring;
    brandVoice : jsstring;
    product : option jsstring;
    imagePrompt : option jsstring;
    targetPersona : option jsstring;
    caption : option jsstring;
    hashtags : option (list jsstring);
    altText : option jsstring;
    status : Status;
    createdAt : jsstring
  }.
End DraftProps.

(** postDraft.ts, the module-private [CreateDraftInput]: the content
    fields are optional here. *)
Module DraftInput.
Record t : Type := mk {
    theme : jsstring;
    brandVoice : jsstring;
    product : option jsstring;
    imagePrompt : option jsstring;
    targetPersona : option jsstring;
    caption : option jsstring;
    hashtags : option (list jsstring);
    altText : option jsstring
  }.
End DraftInput.

(** createDraftUseCase.ts, the exported [CreateDraftInput]: the content
    fields are required. *)
Module CreateDraftInput.
Record t : Type := mk {
    theme : jsstring;
    brandVoice : jsstring;
    product : option jsstring;
    imagePrompt : option jsstring;
    targetPersona : option jsstring;
    caption : jsstring;
    hashtags : list jsstring;
    altText : jsstring
  }.

  (** A value of this type used where postDraft.ts expects its own input
      type: every content field is present. *)
Definition widen (i : t) : DraftInput.t :=
    {| DraftInput.theme := theme i;
       DraftInput.brandVoice := brandVoice i;
       DraftInput.product := product i;
       DraftInput.imagePrompt := imagePrompt i;
       DraftInput.targetPersona := targetPersona i;
       DraftInput.caption := Some (caption i);
       DraftInput.hashtags := Some (hashtags i);
       DraftInput.altText := Some (altText i) |}.
End CreateDraftInput.

(** shared/contracts/draft.ts *)
Module DraftGenerationRequest.
Record t : Type := mk {
    theme : jsstring;
    brandVoice : jsstring;
    product : option jsstring;
    imagePrompt : option jsstring;
    targetPersona : option jsstring
  }.
End DraftGenerationRequest.

Module DraftSummary.
Record t : Type := mk {
    id : jsstring;
    status : Status;
    caption : jsstring;
    hashtags : list jsstring;
    altText : jsstring;
    createdAt : jsstring
  }.
End DraftSummary.

(** draftGenerationWorkflow.ts *)
Module ContentGenerationInput.
Record t : Type := mk {
    theme : jsstring;
    brandVoice : jsstring;
    product : option jsstring;
    targetPersona : option jsstring
  }.
End ContentGenerationInput.

Module GeneratedContent.
Record t : Type := mk {
    caption : jsstring;
    hashtags : list jsstring;
    altText : jsstring
  }.
End GeneratedContent.

(** The argument and the result of [ImageScheduler.schedule]. *)
Module ScheduleInput.
Record t : Type := mk { draftId : jsstring; prompt : jsstring }.
End ScheduleInput.

Module ScheduleResult.
Record t : Type := mk { imageJobId : jsstring }.
End ScheduleResult.

(** types.ts, [WorkerQueuePayload]; its [type] is always
    ["generate_image"]. *)
Module WorkerQueuePayload.
Inductive kind : Type := generate_image.
Record t : Type := mk { type : kind; draftId : jsstring; prompt : jsstring }.
End WorkerQueuePayload.

(** ** The aggregate (postDraft.ts) *)

(** [DraftClock]: [now()] reads the time, in whatever state the caller
    runs in.  A clock that hands out an invalid [Date] makes
    [now().toISOString()] throw on the spot, which is a [now] that throws. *)
Module DraftClock.
Record t (S : Type) : Type := mk { now : SE S Date.t }.
Arguments mk {S} now.
Arguments now {S} t.
End DraftClock.

Module PostDraft.

(** The class holds one private read-only field, [props]. *)
Record t : Type := mk { props : DraftProps.t }.

(** [input.hashtags?.map((tag) => tag.trim()).filter(Boolean)] *)
Definition normalizeHashtags (tags : option (list jsstring))
  : option (list jsstring) :=
  option_map (fun ts => List.filter truthy (List.map trim ts)) tags.

(** [hashtags && hashtags.length > 25] *)
Definition overLimit (hashtags : option (list jsstring)) : bool :=
  match hashtags with
  | Some ts => Nat.ltb 25 (List.length ts)
  | None => false
  end.

Definition themeMessage : jsstring := lit "theme must be a non-empty string".
Definition brandVoiceMessage : jsstring :=
  lit "brandVoice must be a non-empty string".
Definition hashtagsMessage : jsstring :=
  lit "hashtags must be 25 items or fewer".

(** The constructor call that ends [create]:
    [new PostDraft({ id: undefined, theme: trimmedTheme, .. })]. *)
Definition construct (input : DraftInput.t) (trimmedTheme trimmedVoice : jsstring)
  (hashtags : option (list jsstring)) (now : Date.t) : t :=
  mk {|
    DraftProps.id := None;
    DraftProps.theme := trimmedTheme;
    DraftProps.brandVoice := trimmedVoice;
    DraftProps.product :=
      Some (nullish (trim_opt (DraftInput.product input)) []);
    DraftProps.imagePrompt :=
      Some (nullish (trim_opt (DraftInput.imagePrompt input)) []);
    DraftProps.targetPersona :=
      Some (nullish (trim_opt (DraftInput.targetPersona input)) []);
    DraftProps.caption := trim_opt (DraftInput.caption input);
    DraftProps.hashtags := hashtags;
    DraftProps.altText := trim_opt (DraftInput.altText input);
    DraftProps.status := draft;
    DraftProps.createdAt := Date.toISOString now |}.

(** [static create(input, clock)] *)
Definition create {S : Type} (input : DraftInput.t) (clock : DraftClock.t S)
  : SE S t :=
  let trimmedTheme := trim (DraftInput.theme input) in
  let trimmedVoice := trim (DraftInput.brandVoice input) in
  if negb (truthy trimmedTheme) then throw (Error themeMessage)
  else if negb (truthy trimmedVoice) then throw (Error brandVoiceMessage)
  else
    let hashtags := normalizeHashtags (DraftInput.hashtags input) in
    if overLimit hashtags then throw (Error hashtagsMessage)
    else
      now <- DraftClock.now clock ;;
      ret (construct input trimmedTheme trimmedVoice hashtags now).

(** [{ ...props, id }] *)
Definition spreadWithId (p : DraftProps.t) (id : jsstring) : DraftProps.t :=
  {| DraftProps.id := Some id;
     DraftProps.theme := DraftProps.theme p;
     DraftProps.brandVoice := DraftProps.brandVoice p;
     DraftProps.product := DraftProps.product p;
     DraftProps.imagePrompt := DraftProps.imagePrompt p;
     DraftProps.targetPersona := DraftProps.targetPersona p;
     DraftProps.caption := DraftProps.caption p;
     DraftProps.hashtags := DraftProps.hashtags p;
     DraftProps.altText := DraftProps.altText p;
     DraftProps.status := DraftProps.status p;
     DraftProps.createdAt := DraftProps.createdAt p |}.

(** [assignId(id)]: [new PostDraft({ ...this.props, id })] *)
Definition assignId (this : t) (id : jsstring) : t :=
  mk (spreadWithId (props this) id).

(** [toJSON()]: [{ ...this.props }], a copy with the same fields. *)
Definition toJSON (this : t) : DraftProps.t :=
  {| DraftProps.id := DraftProps.id (props this);
     DraftProps.theme := DraftProps.theme (props this);
     DraftProps.brandVoice := DraftProps.brandVoice (props this);
     DraftProps.product := DraftProps.product (props this);
     DraftProps.imagePrompt := DraftProps.imagePrompt (props this);
     DraftProps.targetPersona := DraftProps.targetPersona (props this);
     DraftProps.caption := DraftProps.caption (props this);
     DraftProps.hashtags := DraftProps.hashtags (props this);
     DraftProps.altText := DraftProps.altText (props this);
     DraftProps.status := DraftProps.status (props this);
     DraftProps.createdAt := DraftProps.createdAt (props this) |}.

(** The getters. *)
Definition id (this : t) := DraftProps.id (props this).
Definition theme (this : t) := DraftProps.theme (props this).
Definition brandVoice (this : t) := DraftProps.brandVoice (props this).
Definition product (this : t) := DraftProps.product (props this).
Definition imagePrompt (this : t) := DraftProps.imagePrompt (props this).
Definition targetPersona (this : t) := DraftProps.targetPersona (props this).
Definition caption (this : t) := DraftProps.caption (props this).
Definition hashtags (this : t) := DraftProps.hashtags (props this).
Definition altText (this : t) := DraftProps.altText (props this).
Definition status (this : t) := DraftProps.status (props this).
Definition createdAt (this : t) := DraftProps.createdAt (props this).

End PostDraft.

(** *** Drafts as objects

    [assignId] builds its result with [new]: the receiver stays where it is
    and a fresh object appears.  The heap maps the address of a [PostDraft]
    object to the properties it holds. *)
Module Heap.

(** [new PostDraft(p)]: an address not in use, and the heap with the new
    object at it. *)
Definition new (h : gmap positive DraftProps.t) (p : DraftProps.t)
  : positive * gmap positive DraftProps.t :=
  let l := fresh (dom h) in (l, <[l := p]> h).

(** [this.assignId(id)] on the object at address [this]. *)
Definition assignId (h : gmap positive DraftProps.t) (this : positive)
  (id : jsstring) : option (positive * gmap positive DraftProps.t) :=
  match h !! this with
  | Some p => Some (new h (PostDraft.spreadWithId p id))
  | None => None
  end.

End Heap.

(** ** The use case (createDraftUseCase.ts) *)

Module DraftRepository.
Record t (S : Type) : Type := mk { save : PostDraft.t -> SE S unit }.
Arguments mk {S} save.
Arguments save {S} t draft.
End DraftRepository.

Module IdProvider.
Record t (S : Type) : Type := mk { next : SE S jsstring }.
Arguments mk {S} next.
Arguments next {S} t.
End IdProvider.

Module CreateDraftUseCase.

Record t (S : Type) : Type := mk {
  repository : DraftRepository.t S;
  idProvider : IdProvider.t S;
  clock : DraftClock.t S
}.
Arguments mk {S} repository idProvider clock.
Arguments repository {S} t.
Arguments idProvider {S} t.
Arguments clock {S} t.

(** TypeScript's postfix [!] is erased: [json.id!] is [json.id].  In
    [execute] it is applied right after [assignId], where the field is
    present; the other branch only makes the function total. *)
Definition nonNull (o : option jsstring) : jsstring :=
  match o with Some s => s | None => [] end.

(** The object literal [execute] returns, built from [draft.toJSON()]. *)
Definition summary (json : DraftProps.t) : DraftSummary.t :=
  {| DraftSummary.id := nonNull (DraftProps.id json);
     DraftSummary.status := DraftProps.status json;
     DraftSummary.caption := nullish (DraftProps.caption json) [];
     DraftSummary.hashtags := nullish (DraftProps.hashtags json) [];
     DraftSummary.altText := nullish (DraftProps.altText json) [];
     DraftSummary.createdAt := DraftProps.createdAt json |}.

(** [async execute(input)].  In
    [PostDraft.create(input, this.clock).assignId(this.idProvider.next())]
    the receiver is evaluated before the argument: [create] runs first,
    then [next]. *)
Definition execute {S : Type} (this : t S) (input : CreateDraftInput.t)
  : SE S DraftSummary.t :=
  created <- PostDraft.create (CreateDraftInput.widen input) (clock this) ;;
  id <- IdProvider.next (idProvider this) ;;
  let draft := PostDraft.assignId created id in
  _ <- DraftRepository.save (repository this) draft ;;
  let json := PostDraft.toJSON draft in
  ret (summary json).

End CreateDraftUseCase.

(** ** The workflow (draftGenerationWorkflow.ts) *)

Module ContentGenerator.
Record t (S : Type) : Type :=
  mk { generate : ContentGenerationInput.t -> SE S GeneratedContent.t }.
Arguments mk {S} generate.
Arguments generate {S} t input.
End ContentGenerator.

Module ImageScheduler.
Record t (S : Type) : Type :=
  mk { schedule : ScheduleInput.t -> SE S ScheduleResult.t }.
Arguments mk {S} schedule.
Arguments schedule {S} t input.
End ImageScheduler.

Module DraftGenerationWorkflow.

Record t (S : Type) : Type := mk {
  contentGenerator : ContentGenerator.t S;
  imageScheduler : ImageScheduler.t S;
  createDraft : CreateDraftUseCase.t S
}.
Arguments mk {S} contentGenerator imageScheduler createDraft.
Arguments contentGenerator {S} t.
Arguments imageScheduler {S} t.
Arguments createDraft {S} t.

(** The argument of [contentGenerator.generate]. *)
Definition generationInput (input : DraftGenerationRequest.t)
  : ContentGenerationInput.t :=
  {| ContentGenerationInput.theme := DraftGenerationRequest.theme input;
     ContentGenerationInput.brandVoice :=
       DraftGenerationRequest.brandVoice input;
     ContentGenerationInput.product := DraftGenerationRequest.product input;
     ContentGenerationInput.targetPersona :=
       DraftGenerationRequest.targetPersona input |}.

(** [draftInput] *)
Definition draftInput (input : DraftGenerationRequest.t)
  (generated : GeneratedContent.t) : CreateDraftInput.t :=
  {| CreateDraftInput.theme := DraftGenerationRequest.theme input;
     CreateDraftInput.brandVoice := DraftGenerationRequest.brandVoice input;
     CreateDraftInput.product := DraftGenerationRequest.product input;
     CreateDraftInput.imagePrompt := DraftGenerationRequest.imagePrompt input;
     CreateDraftInput.targetPersona :=
       DraftGenerationRequest.targetPersona input;
     CreateDraftInput.caption := GeneratedContent.caption generated;
     CreateDraftInput.hashtags := GeneratedContent.hashtags generated;
     CreateDraftInput.altText := GeneratedContent.altText generated |}.

(** [input.imagePrompt?.trim() || input.theme] *)
Definition imagePromptOf (input : DraftGenerationRequest.t) : jsstring :=
  match trim_opt (DraftGenerationRequest.imagePrompt input) with
  | Some p => if truthy p then p else DraftGenerationRequest.theme input
  | None => DraftGenerationRequest.theme input
  end.

(** [async run(input)] *)
Definition run {S : Type} (this : t S) (input : DraftGenerationRequest.t)
  : SE S DraftSummary.t :=
  generated <-
    ContentGenerator.generate (contentGenerator this) (generationInput input) ;;
  draft <-
    CreateDraftUseCase.execute (createDraft this) (draftInput input generated) ;;
  let prompt := imagePromptOf input in
  _ <- ImageScheduler.schedule (imageScheduler this)
         {| ScheduleInput.draftId := DraftSummary.id draft;
            ScheduleInput.prompt := prompt |} ;;
  ret draft.

End DraftGenerationWorkflow.

(** ** The queue-backed scheduler (queueImageScheduler.ts) *)

(** The Cloudflare queue binding: [send] may reject. *)
Module Queue.
Record t (S : Type) : Type := mk { send : WorkerQueuePayload.t -> SE S unit }.
Arguments mk {S} send.
Arguments send {S} t message.
End Queue.

Module QueueImageScheduler.

(** [QueueBinding] is [Queue<..> | undefined]. *)
Record t (S : Type) : Type := mk { queue : option (Queue.t S) }.
Arguments mk {S} queue.
Arguments queue {S} t.

(** The template literal with [-image] after the draft id. *)
Definition jobId (draftId : jsstring) : jsstring := draftId ++ lit "-image".

(** The message [schedule] sends. *)
Definition message (input : ScheduleInput.t) : WorkerQueuePayload.t :=
  {| WorkerQueuePayload.type := WorkerQueuePayload.generate_image;
     WorkerQueuePayload.draftId := ScheduleInput.draftId input;
     WorkerQueuePayload.prompt := ScheduleInput.prompt input |}.

(** [async schedule(input)] *)
Definition schedule {S : Type} (this : t S) (input : ScheduleInput.t)
  : SE S ScheduleResult.t :=
  _ <- match queue this with
       | Some q => Queue.send q (message input)
       | None => ret tt
       end ;;
  ret {| ScheduleResult.imageJobId := jobId (ScheduleInput.draftId input) |}.

(** The class [implements ImageScheduler]. *)
Definition port {S : Type} (this : t S) : ImageScheduler.t S :=
  ImageScheduler.mk (schedule this).

End QueueImageScheduler.

(** ** The rule-based generator (simpleContentGenerator.ts) *)

(** [Set<string>]: membership by string equality, iteration in insertion
    order, which is the order [Array.from] lists the elements in. *)
Module StringSet.
Definition empty : list jsstring := [].
Definition add (x : jsstring) (s : list jsstring) : list jsstring :=
  if decide (x ∈ s) then s else s ++ [x].
End StringSet.

Module SimpleContentGenerator.
Section Generator.

(** [String.prototype.toLowerCase], the Unicode default case conversion,
    taken as given. *)
Variable toLowerCase : jsstring -> jsstring.

(** The fixed pieces of the templates: [を], [トーンで紹介。] and
    [を表現する画像]. *)
Definition wo : jsstring := [12434%N].
Definition toneDeShoukai : jsstring :=
  [12488; 12540; 12531; 12391; 32057; 20171; 12290]%N.
Definition woHyougenSuruGazou : jsstring :=
  [12434; 34920; 29694; 12377; 12427; 30011; 20687]%N.

Definition buildCaption (input : ContentGenerationInput.t) : jsstring :=
  let persona :=
    match ContentGenerationInput.targetPersona input with
    | Some p => if truthy p then lit "#" ++ p else []
    | None => []
    end in
  let product :=
    match ContentGenerationInput.product input with
    | Some p => if truthy p then lit " " ++ p else []
    | None => []
    end in
  trim (ContentGenerationInput.theme input ++ product ++ wo ++
        ContentGenerationInput.brandVoice input ++ toneDeShoukai ++ persona).

Definition buildHashtags (input : ContentGenerationInput.t) : list jsstring :=
  let tags := StringSet.empty in
  let tags :=
    StringSet.add
      (toLowerCase (removeWhiteSpace (ContentGenerationInput.theme input)))
      tags in
  let tags :=
    match ContentGenerationInput.product input with
    | Some p =>
        if truthy p
        then StringSet.add (toLowerCase (removeWhiteSpace p)) tags
        else tags
    | None => tags
    end in
  let tags := StringSet.add (lit "instagram") tags in
  tags.

Definition buildAltText (input : ContentGenerationInput.t) : jsstring :=
  ContentGenerationInput.theme input ++ woHyougenSuruGazou.

(** [async generate(input)] *)
Definition generate {S : Type} (input : ContentGenerationInput.t)
  : SE S GeneratedContent.t :=
  let caption := buildCaption input in
  let hashtags := buildHashtags input in
  let altText := buildAltText input in
  ret {| GeneratedContent.caption := caption;
         GeneratedContent.hashtags := hashtags;
         GeneratedContent.altText := altText |}.

(** The class [implements ContentGenerator]. *)
Definition port {S : Type} : ContentGenerator.t S :=
  ContentGenerator.mk generate.

End Generator.
End SimpleContentGenerator.

(** ** The HTTP adapter's validation (app.ts)

    What reaches [run] in the deployed worker has passed
    [validateDraftGenerationInput]. *)
Module App.

(** A value of type [unknown], as far as the checks look at it: a string,
    or anything else, [undefined] included. *)
Inductive unknown : Type :=
| Str (s : jsstring)
| NotString.

(** The five properties read from [raw as Record<string, unknown>]. *)
Record Payload : Type := mk {
  theme : unknown;
  brandVoice : unknown;
  product : unknown;
  imagePrompt : unknown;
  targetPersona : unknown
}.

(** [{ ok: true, value } | { ok: false, error }] *)
Inductive Result (A : Type) : Type :=
| Ok (value : A)
| Fail (error : jsstring).
Arguments Ok {A} value.
Arguments Fail {A} error.

Definition ensureString (value : unknown) (field : jsstring)
  : Result jsstring :=
  match value with
  | Str v =>
      if Nat.eqb (List.length (trim v)) 0
      then Fail (field ++ lit " must be a non-empty string")
      else Ok (trim v)
  | NotString => Fail (field ++ lit " must be a non-empty string")
  end.

Definition asOptionalString (value : unknown) : option jsstring :=
  match value with
  | Str v => if Nat.ltb 0 (List.length (trim v)) then Some (trim v) else None
  | NotString => None
  end.

(** [raw] is [None] when it is not an object or is [null]. *)
Definition validateDraftGenerationInput (raw : option Payload)
  : Result DraftGenerationRequest.t :=
  match raw with
  | None => Fail (lit "Payload must be an object")
  | Some payload =>
      let theme := ensureString (theme payload) (lit "theme") in
      let brandVoice := ensureString (brandVoice payload) (lit "brandVoice") in
      match theme with
      | Fail e => Fail e
      | Ok themeValue =>
          match brandVoice with
          | Fail e => Fail e
          | Ok brandVoiceValue =>
              Ok {| DraftGenerationRequest.theme := themeValue;
                    DraftGenerationRequest.brandVoice := brandVoiceValue;
                    DraftGenerationRequest.product :=
                      asOptionalString (product payload);
                    DraftGenerationRequest.imagePrompt :=
                      asOptionalString (imagePrompt payload);
                    DraftGenerationRequest.targetPersona :=
                      asOptionalString (targetPersona payload) |}
          end
      end
  end.

End App.

(** ** Observing the calls

    A spy wraps a port: it notes the call, then lets the port act on the
    world.  The core is run on spied ports to read off the order of its
    calls. *)

Inductive Call : Type :=
| CallGenerate (input : ContentGenerationInput.t)
| CallNow
| CallNext
| CallSave (draft : PostDraft.t)
| CallSchedule (input : ScheduleInput.t).

Module Spy.

Record Log (World : Type) : Type := mk { world : World; calls : list Call }.
Arguments mk {World} world calls.
Arguments world {World} l.
Arguments calls {World} l.

Definition record {World A : Type} (c : Call) (p : SE World A)
  : SE (Log World) A :=
  fun s =>
    let (r, w) := p (world s) in
    (r, {| world := w; calls := calls s ++ [c] |}).

Definition clock {World : Type} (c : DraftClock.t World)
  : DraftClock.t (Log World) :=
  DraftClock.mk (record CallNow (DraftClock.now c)).

Definition idProvider {World : Type} (p : IdProvider.t World)
  : IdProvider.t (Log World) :=
  IdProvider.mk (record CallNext (IdProvider.next p)).

Definition repository {World : Type} (r : DraftRepository.t World)
  : DraftRepository.t (Log World) :=
  DraftRepository.mk (fun d => record (CallSave d) (DraftRepository.save r d)).

Definition contentGenerator {World : Type} (g : ContentGenerator.t World)
  : ContentGenerator.t (Log World) :=
  ContentGenerator.mk
    (fun i => record (CallGenerate i) (ContentGenerator.generate g i)).

Definition imageScheduler {World : Type} (s : ImageScheduler.t World)
  : ImageScheduler.t (Log World) :=
  ImageScheduler.mk
    (fun i => record (CallSchedule i) (ImageScheduler.schedule s i)).

Definition useCase {World : Type} (u : CreateDraftUseCase.t World)
  : CreateDraftUseCase.t (Log World) :=
  CreateDraftUseCase.mk
    (repository (CreateDraftUseCase.repository u))
    (idProvider (CreateDraftUseCase.idProvider u))
    (clock (CreateDraftUseCase.clock u)).

Definition workflow {World : Type} (w : DraftGenerationWorkflow.t World)
  : DraftGenerationWorkflow.t (Log World) :=
  DraftGenerationWorkflow.mk
    (contentGenerator (DraftGenerationWorkflow.contentGenerator w))
    (imageScheduler (DraftGenerationWorkflow.imageScheduler w))
    (useCase (DraftGenerationWorkflow.createDraft w)).

(** The calls that count for the order of the three steps. *)
Inductive Step : Type := Generate | Save | Schedule.

Definition step (c : Call) : option Step :=
  match c with
  | CallGenerate _ => Some Generate
  | CallSave _ => Some Save
  | CallSchedule _ => Some Schedule
  | CallNow | CallNext => None
  end.

Definition steps (l : list Call) : list Step := omap step l.

Definition isSave (c : Call) : bool :=
  match c with CallSave _ => true | _ => false end.

Definition isSchedule (c : Call) : bool :=
  match c with CallSchedule _ => true | _ => false end.

End Spy.

(** ** What a record keeps of the input

    Three ways to compare the input of the factory with the record of the
    draft it made. *)
Module Supplied.

(** Every supplied field is in the record as it was supplied. *)
Definition unchanged (i : DraftInput.t) (p : DraftProps.t) : Prop :=
  DraftProps.theme p = DraftInput.theme i /\
  DraftProps.brandVoice p = DraftInput.brandVoice i /\
  DraftProps.product p = DraftInput.product i /\
  DraftProps.imagePrompt p = DraftInput.imagePrompt i /\
  DraftProps.targetPersona p = DraftInput.targetPersona i /\
  DraftProps.caption p = DraftInput.caption i /\
  DraftProps.hashtags p = DraftInput.hashtags i /\
  DraftProps.altText p = DraftInput.altText i.

(** Every supplied field is in the record in the factory's normal form:
    strings trimmed, blank hashtags dropped, an absent product, image
    prompt or persona as the empty string. *)
Definition normalised (i : DraftInput.t) (p : DraftProps.t) : Prop :=
  DraftProps.theme p = trim (DraftInput.theme i) /\
  DraftProps.brandVoice p = trim (DraftInput.brandVoice i) /\
  DraftProps.product p = Some (nullish (trim_opt (DraftInput.product i)) []) /\
  DraftProps.imagePrompt p =
    Some (nullish (trim_opt (DraftInput.imagePrompt i)) []) /\
  DraftProps.targetPersona p =
    Some (nullish (trim_opt (DraftInput.targetPersona i)) []) /\
  DraftProps.caption p = trim_opt (DraftInput.caption i) /\
  DraftProps.hashtags p =
    PostDraft.normalizeHashtags (DraftInput.hashtags i) /\
  DraftProps.altText p = trim_opt (DraftInput.altText i).

(** An optional string that is absent or trimmed. *)
Definition trimmedIfPresent (o : option jsstring) : Prop :=
  match o with Some s => trimmed s | None => True end.

(** An optional string that is present and trimmed. *)
Definition presentTrimmed (o : option jsstring) : Prop :=
  match o with Some s => trimmed s | None => False end.

(** An input that is already in normal form. *)
Definition normal (i : DraftInput.t) : Prop :=
  trimmed (DraftInput.theme i) /\
  trimmed (DraftInput.brandVoice i) /\
  presentTrimmed (DraftInput.product i) /\
  presentTrimmed (DraftInput.imagePrompt i) /\
  presentTrimmed (DraftInput.targetPersona i) /\
  trimmedIfPresent (DraftInput.caption i) /\
  match DraftInput.hashtags i with
  | Some ts => List.Forall (fun h => trimmed h /\ h <> []) ts
  | None => True
  end /\
  trimmedIfPresent (DraftInput.altText i).

(** The supplied fields of a record, read back as an input. *)
Definition asInput (p : DraftProps.t) : DraftInput.t :=
  {| DraftInput.theme := DraftProps.theme p;
     DraftInput.brandVoice := DraftProps.brandVoice p;
     DraftInput.product := DraftProps.product p;
     DraftInput.imagePrompt := DraftProps.imagePrompt p;
     DraftInput.targetPersona := DraftProps.targetPersona p;
     DraftInput.caption := DraftProps.caption p;
     DraftInput.hashtags := DraftProps.hashtags p;
     DraftInput.altText := DraftProps.altText p |}.

End Supplied.

(** ** Test doubles

    In-memory ports in the style of the repository's tests, used to run
    the core on concrete inputs. *)
Module Fakes.

Record World : Type := mk {
  stored : list PostDraft.t;
  queued : list WorkerQueuePayload.t;
  issued : nat
}.

Definition start : World := {| stored := []; queued := []; issued := 0 |}.

Definition clock : DraftClock.t World :=
  DraftClock.mk (ret (Date.mk (lit "2025-01-01T00:00:00.000Z"))).

Definition idProvider : IdProvider.t World :=
  IdProvider.mk (fun w =>
    (Returned (lit "draft-123"),
     {| stored := stored w; queued := queued w; issued := S (issued w) |})).

(** Like [KvDraftRepository.save]: a draft without an id is refused,
    any other is written. *)
Definition repository : DraftRepository.t World :=
  DraftRepository.mk (fun d w =>
    if truthy_opt (DraftProps.id (PostDraft.toJSON d))
    then (Returned tt,
          {| stored := stored w ++ [d]; queued := queued w;
             issued := issued w |})
    else (Threw (Error (lit "Draft must have an id before persisting")), w)).

Definition contentGenerator : ContentGenerator.t World :=
  ContentGenerator.mk (fun _ =>
    ret {| GeneratedContent.caption := lit "C";
           GeneratedContent.hashtags := [lit "a"; lit "b"];
           GeneratedContent.altText := lit "Alt" |}).

Definition failingGenerator : ContentGenerator.t World :=
  ContentGenerator.mk (fun _ => throw (Rejected 1%N)).

Definition queue : Queue.t World :=
  Queue.mk (fun m w =>
    (Returned tt,
     {| stored := stored w; queued := queued w ++ [m]; issued := issued w |})).

(** A queue whose [send] rejects. *)
Definition brokenQueue : Queue.t World :=
  Queue.mk (fun _ => throw (Error (lit "Queue send failed"))).

Definition useCase : CreateDraftUseCase.t World :=
  CreateDraftUseCase.mk repository idProvider clock.

Definition workflowWith (q : option (Queue.t World))
  : DraftGenerationWorkflow.t World :=
  DraftGenerationWorkflow.mk contentGenerator
    (QueueImageScheduler.port (QueueImageScheduler.mk q)) useCase.

Definition failingWorkflow : DraftGenerationWorkflow.t World :=
  DraftGenerationWorkflow.mk failingGenerator
    (QueueImageScheduler.port (QueueImageScheduler.mk None)) useCase.

(** What the workflow hands to the scheduler for the sneaker request. *)
Definition sneakerJob : ScheduleInput.t :=
  {| ScheduleInput.draftId := lit "draft-123";
     ScheduleInput.prompt := lit "young person walking" |}.

(** Lower-casing of the ASCII letters only, enough for ASCII inputs. *)
Definition asciiLower (s : jsstring) : jsstring :=
  List.map (fun c => if ((65 <=? c) && (c <=? 90))%N then (c + 32)%N else c) s.

(** The request of the workflow test, in ASCII. *)
Definition sneakerRequest : DraftGenerationRequest.t :=
  {| DraftGenerationRequest.theme := lit "new sneaker";
     DraftGenerationRequest.brandVoice := lit "friendly";
     DraftGenerationRequest.product := Some (lit "AirFlex");
     DraftGenerationRequest.imagePrompt := Some (lit "young person walking");
     DraftGenerationRequest.targetPersona := Some (lit "active 20s") |}.

(** A request whose theme carries surrounding blanks and that names no
    image prompt. *)
Definition paddedRequest : DraftGenerationRequest.t :=
  {| DraftGenerationRequest.theme := lit " spring sneaker ";
     DraftGenerationRequest.brandVoice := lit "kind";
     DraftGenerationRequest.product := None;
     DraftGenerationRequest.imagePrompt := None;
     DraftGenerationRequest.targetPersona := None |}.

(** A trimmed theme with a blank image prompt. *)
Definition springRequest : DraftGenerationRequest.t :=
  {| DraftGenerationRequest.theme := lit "spring sneaker";
     DraftGenerationRequest.brandVoice := lit "kind";
     DraftGenerationRequest.product := None;
     DraftGenerationRequest.imagePrompt := Some (lit "   ");
     DraftGenerationRequest.targetPersona := None |}.

(** The use-case inputs the workflow builds from these requests. *)
Definition generated : GeneratedContent.t :=
  {| GeneratedContent.caption := lit "C";
     GeneratedContent.hashtags := [lit "a"; lit "b"];
     GeneratedContent.altText := lit "Alt" |}.

Definition sneakerInput : CreateDraftInput.t :=
  DraftGenerationWorkflow.draftInput sneakerRequest generated.

(** A request with an empty theme. *)
Definition emptyThemeRequest : DraftGenerationRequest.t :=
  {| DraftGenerationRequest.theme := [];
     DraftGenerationRequest.brandVoice := lit "kind";
     DraftGenerationRequest.product := None;
     DraftGenerationRequest.imagePrompt := None;
     DraftGenerationRequest.targetPersona := None |}.

Definition emptyThemeInput : CreateDraftInput.t :=
  DraftGenerationWorkflow.draftInput emptyThemeRequest generated.

(** Inputs of the factory. *)
Definition paddedInput : DraftInput.t :=
  {| DraftInput.theme := lit " spring sneaker ";
     DraftInput.brandVoice := lit " kind ";
     DraftInput.product := Some (lit "AirFlex");
     DraftInput.imagePrompt := None;
     DraftInput.targetPersona := None;
     DraftInput.caption := Some (lit "C");
     DraftInput.hashtags := Some [lit " a "; lit "  "; lit "b"];
     DraftInput.altText := Some (lit "Alt") |}.

Definition blankThemeInput : DraftInput.t :=
  {| DraftInput.theme := lit "  ";
     DraftInput.brandVoice := lit "kind";
     DraftInput.product := None;
     DraftInput.imagePrompt := None;
     DraftInput.targetPersona := None;
     DraftInput.caption := None;
     DraftInput.hashtags := None;
     DraftInput.altText := None |}.

(** An input already in normal form. *)
Definition normalInput : DraftInput.t :=
  {| DraftInput.theme := lit "spring sneaker";
     DraftInput.brandVoice := lit "kind";
     DraftInput.product := Some (lit "AirFlex");
     DraftInput.imagePrompt := Some [];
     DraftInput.targetPersona := Some (lit "active 20s");
     DraftInput.caption := Some (lit "C");
     DraftInput.hashtags := Some [lit "a"; lit "b"];
     DraftInput.altText := None |}.

(** An input with [n] hashtags ["x"]. *)
Definition taggedInput (n : nat) : DraftInput.t :=
  {| DraftInput.theme := lit "theme";
     DraftInput.brandVoice := lit "kind";
     DraftInput.product := None;
     DraftInput.imagePrompt := None;
     DraftInput.targetPersona := None;
     DraftInput.caption := None;
     DraftInput.hashtags := Some (repeat (lit "x") n);
     DraftInput.altText := None |}.

End Fakes.

(** ** The key-value repository (kvDraftRepository.ts) *)

(** The Cloudflare KV binding, as far as the repository uses it:
    [put(key, value, { expirationTtl })]. *)
Module KVNamespace.
Record t (S : Type) : Type :=
  mk { put : jsstring -> jsstring -> Z -> SE S unit }.
Arguments mk {S} put.
Arguments put {S} t key value expirationTtl.
End KVNamespace.

Module KvDraftRepository.

Definition DEFAULT_TTL_SECONDS : Z := 60 * 60 * 24 * 7.

Record t (S : Type) : Type := mk { kv : KVNamespace.t S; ttlSeconds : Z }.
Arguments mk {S} kv ttlSeconds.
Arguments kv {S} t.
Arguments ttlSeconds {S} t.

(** [constructor(kv, ttlSeconds = DEFAULT_TTL_SECONDS)]: an argument left
    out takes the default. *)
Definition make {S : Type} (kv : KVNamespace.t S) (ttlSeconds : option Z)
  : t S :=
  mk kv (nullish ttlSeconds DEFAULT_TTL_SECONDS).

Definition missingIdMessage : jsstring :=
  lit "Draft must have an id before persisting".

(** The template literal with [draft:] before the id. *)
Definition key (id : jsstring) : jsstring := lit "draft:" ++ id.

Section Save.

Context {S : Type}.

(** [JSON.stringify] on the record of a draft, taken as given. *)
Variable stringify : DraftProps.t -> jsstring.

(** [async save(draft)].  [!json.id] holds for an absent id and for the
    empty string. *)
Definition save (this : t S) (draft : PostDraft.t) : SE S unit :=
  let json := PostDraft.toJSON draft in
  match DraftProps.id json with
  | Some id =>
      if negb (truthy id) then throw (Error missingIdMessage)
      else
        KVNamespace.put (kv this) (key id) (stringify json) (ttlSeconds this)
  | None => throw (Error missingIdMessage)
  end.

(** The class [implements DraftRepository]. *)
Definition port (this : t S) : DraftRepository.t S :=
  DraftRepository.mk (save this).

End Save.

End KvDraftRepository.

(** ** The id provider (uuidProvider.ts) *)

Module UuidProvider.

(** [next()] returns [crypto.randomUUID()], the platform's generator. *)
Definition next {S : Type} (randomUUID : SE S jsstring) : SE S jsstring :=
  randomUUID.

Definition port {S : Type} (randomUUID : SE S jsstring) : IdProvider.t S :=
  IdProvider.mk (next randomUUID).

End UuidProvider.

(** ** The wiring (types.ts, workflow.ts) *)

Module WorkerBindings.
Record t (S : Type) : Type := mk {
  KV : KVNamespace.t S;
  IMAGE_QUEUE : option (Queue.t S)
}.
Arguments mk {S} KV IMAGE_QUEUE.
Arguments KV {S} t.
Arguments IMAGE_QUEUE {S} t.
End WorkerBindings.

Module Wiring.
Section Factory.

Context {S : Type}.

Variable toLowerCase : jsstring -> jsstring.
Variable stringify : DraftProps.t -> jsstring.
Variable randomUUID : SE S jsstring.

(** The clock of infrastructure/systemClock.ts, whose source is not among
    the files at hand, taken as given. *)
Variable systemClock : DraftClock.t S.

(** [createDraftGenerationWorkflow(env)] *)
Definition createDraftGenerationWorkflow (env : WorkerBindings.t S)
  : DraftGenerationWorkflow.t S :=
  let repository := KvDraftRepository.make (WorkerBindings.KV env) None in
  let idProvider := UuidProvider.port randomUUID in
  let clock := systemClock in
  let useCase :=
    CreateDraftUseCase.mk (KvDraftRepository.port stringify repository)
      idProvider clock in
  let contentGenerator := SimpleContentGenerator.port toLowerCase in
  let imageScheduler :=
    QueueImageScheduler.port
      (QueueImageScheduler.mk (WorkerBindings.IMAGE_QUEUE env)) in
  DraftGenerationWorkflow.mk contentGenerator imageScheduler useCase.

(** What the rule-based generator returns for a request. *)
Definition generated (request : DraftGenerationRequest.t)
  : GeneratedContent.t :=
  let input := DraftGenerationWorkflow.generationInput request in
  {| GeneratedContent.caption := SimpleContentGenerator.buildCaption input;
     GeneratedContent.hashtags :=
       SimpleContentGenerator.buildHashtags toLowerCase input;
     GeneratedContent.altText := SimpleContentGenerator.buildAltText input |}.

(** The draft the wired workflow has saved for a request, made at time
    [now] and given the identifier [id]. *)
Definition draftOf (request : DraftGenerationRequest.t) (now : Date.t)
  (id : jsstring) : PostDraft.t :=
  let input :=
    CreateDraftInput.widen
      (DraftGenerationWorkflow.draftInput request (generated request)) in
  PostDraft.assignId
    (PostDraft.construct input (trim (DraftInput.theme input))
       (trim (DraftInput.brandVoice input))
       (PostDraft.normalizeHashtags (DraftInput.hashtags input)) now)
    id.

End Factory.
End Wiring.

(** ** The route (app.ts) *)

Module Route.

(** The two JSON bodies the route answers with:
    [{ error: { message } }] and [{ id, draft }]. *)
Inductive Body : Type :=
| ErrorBody (message : jsstring)
| GeneratedBody (id : jsstring) (draft : DraftSummary.t).

Record Response : Type := mk { body : Body; status : N }.

(** What [await c.req.json()] gives: it rejects for a body that is not
    JSON, or yields the parsed value, seen as the validation sees it. *)
Inductive RequestJson : Type :=
| NotJson
| Parsed (raw : option App.Payload).

(** [ReadResult] *)
Inductive ReadResult : Type :=
| Value (value : DraftGenerationRequest.t)
| ReadError (message : jsstring).

(** [async readJson(c)] *)
Definition readJson (c : RequestJson) : ReadResult :=
  match c with
  | NotJson => ReadError (lit "Invalid JSON payload")
  | Parsed payload =>
      match App.validateDraftGenerationInput payload with
      | App.Fail error => ReadError error
      | App.Ok value => Value value
      end
  end.

(** [error instanceof Error ? error.message : "Unknown error"] *)
Definition messageOf (error : Thrown) : jsstring :=
  match error with
  | Error message => message
  | Rejected _ => lit "Unknown error"
  end.

(** The handler of [POST /api/v1/generate]. *)
Definition generate {S Env : Type} (factory : Env -> DraftGenerationWorkflow.t S)
  (env : Env) (c : RequestJson) (s : S) : Response * S :=
  match readJson c with
  | ReadError message => ({| body := ErrorBody message; status := 400 |}, s)
  | Value value =>
      let workflow := factory env in
      match DraftGenerationWorkflow.run workflow value s with
      | (Returned result, s') =>
          ({| body := GeneratedBody (DraftSummary.id result) result;
              status := 201 |}, s')
      | (Threw error, s') =>
          ({| body := ErrorBody (messageOf error); status := 400 |}, s')
      end
  end.

End Route.

(** ** The form (types.ts, useDraftGeneration.ts, GenerationForm.tsx) *)

Module GenerationFormValues.
Record t : Type := mk {
  theme : jsstring;
  brandVoice : jsstring;
  product : jsstring;
  imagePrompt : jsstring;
  targetPersona : jsstring
}.

Definition initialFormValues : t :=
  {| theme := []; brandVoice := []; product := []; imagePrompt := [];
     targetPersona := [] |}.

(** [keyof GenerationFormValues] *)
Inductive key : Type :=
| Theme | BrandVoice | Product | ImagePrompt | TargetPersona.

End GenerationFormValues.

Module UseDraftGeneration.

(** [optional] in [toRequestPayload] *)
Definition optional (value : jsstring) : option jsstring :=
  let trimmed := trim value in
  if Nat.ltb 0 (List.length trimmed) then Some trimmed else None.

Definition toRequestPayload (values : GenerationFormValues.t)
  : DraftGenerationRequest.t :=
  {| DraftGenerationRequest.theme := trim (GenerationFormValues.theme values);
     DraftGenerationRequest.brandVoice :=
       trim (GenerationFormValues.brandVoice values);
     DraftGenerationRequest.product :=
       optional (GenerationFormValues.product values);
     DraftGenerationRequest.imagePrompt :=
       optional (GenerationFormValues.imagePrompt values);
     DraftGenerationRequest.targetPersona :=
       optional (GenerationFormValues.targetPersona values) |}.

(** [canSubmit] *)
Definition canSubmit (formValues : GenerationFormValues.t) : bool :=
  Nat.ltb 0 (List.length (trim (GenerationFormValues.theme formValues))) &&
  Nat.ltb 0 (List.length (trim (GenerationFormValues.brandVoice formValues))).







End UseDraftGeneration.

(** GenerationForm.tsx: what [handleSubmit] passes to [onSubmit], or
    nothing when the guard stops it. *)
Module GenerationForm.

Definition asOptional (value : jsstring) : option jsstring :=
  let trimmed := trim value in
  if Nat.ltb 0 (List.length trimmed) then Some trimmed else None.

Definition handleSubmit (values : GenerationFormValues.t)
  (canSubmit isSubmitting : bool) : option DraftGenerationRequest.t :=
  if negb canSubmit || isSubmitting then None
  else
    Some
      {| DraftGenerationRequest.theme :=
           trim (GenerationFormValues.theme values);
         DraftGenerationRequest.brandVoice :=
           trim (GenerationFormValues.brandVoice values);
         DraftGenerationRequest.product :=
           asOptional (GenerationFormValues.product values);
         DraftGenerationRequest.imagePrompt :=
           asOptional (GenerationFormValues.imagePrompt values);
         DraftGenerationRequest.targetPersona :=
           asOptional (GenerationFormValues.targetPersona values) |}.

End GenerationForm.

(** ** From the browser to the worker

    [JSON.stringify] leaves out a property that is [undefined] and writes
    a string so that parsing gives the same code units back: this is the
    payload the worker reads for a request the browser sends. *)
Module Wire.

Definition property (o : option jsstring) : App.unknown :=
  match o with
  | Some v => App.Str v
  | None => App.NotString
  end.

Definition payload (request : DraftGenerationRequest.t) : App.Payload :=
  {| App.theme := App.Str (DraftGenerationRequest.theme request);
     App.brandVoice := App.Str (DraftGenerationRequest.brandVoice request);
     App.product := property (DraftGenerationRequest.product request);
     App.imagePrompt := property (DraftGenerationRequest.imagePrompt request);
     App.targetPersona :=
       property (DraftGenerationRequest.targetPersona request) |}.

Definition sent (request : DraftGenerationRequest.t) : Route.RequestJson :=
  Route.Parsed (Some (payload request)).

End Wire.

(** ** The drafts the class can make

    The constructor is private: a [PostDraft] comes from [create] or from
    [assignId] on another one. *)
Module Made.

Inductive t : PostDraft.t -> Prop :=
| by_create (S : Type) (input : DraftInput.t) (clock : DraftClock.t S)
    (s s' : S) (d : PostDraft.t) :
    PostDraft.create input clock s = (Returned d, s') -> t d
| by_assignId (d : PostDraft.t) (id : jsstring) :
    t d -> t (PostDraft.assignId d id).


End Made.

(** ** In-memory bindings

    A store, a queue and a generator of ids in one world, to run the wired
    worker on concrete requests. *)
Module Memory.

Record World : Type := mk {
  store : list (jsstring * (jsstring * Z));
  sent : list WorkerQueuePayload.t;
  uuids : list jsstring
}.

Definition start (uuids : list jsstring) : World :=
  {| store := []; sent := []; uuids := uuids |}.

Definition kv : KVNamespace.t World :=
  KVNamespace.mk (fun key value ttl w =>
    (Returned tt,
     {| store := (key, (value, ttl)) :: store w; sent := sent w;
        uuids := uuids w |})).

Definition queue : Queue.t World :=
  Queue.mk (fun m w =>
    (Returned tt,
     {| store := store w; sent := sent w ++ [m]; uuids := uuids w |})).

(** Hands out the prepared ids in turn. *)
Definition randomUUID : SE World jsstring :=
  fun w =>
    match uuids w with
    | id :: rest =>
        (Returned id, {| store := store w; sent := sent w; uuids := rest |})
    | [] => (Threw (Rejected 0%N), w)
    end.

Definition clock : DraftClock.t World :=
  DraftClock.mk (ret (Date.mk (lit "2025-01-01T00:00:00.000Z"))).

(** A stand-in for [JSON.stringify]: the id and the theme. *)
Definition stringify (p : DraftProps.t) : jsstring :=
  nullish (DraftProps.id p) [] ++ lit ":" ++ DraftProps.theme p.

Definition env (q : option (Queue.t World)) : WorkerBindings.t World :=
  WorkerBindings.mk kv q.

Definition workflow (q : option (Queue.t World))
  : DraftGenerationWorkflow.t World :=
  Wiring.createDraftGenerationWorkflow Fakes.asciiLower stringify randomUUID
    clock (env q).

Definition uuid : jsstring := lit "123e4567-e89b-42d3-a456-426614174000".

(** What is typed into the form. *)
Definition typed : GenerationFormValues.t :=
  {| GenerationFormValues.theme := lit " Spring Sneaker ";
     GenerationFormValues.brandVoice := lit "kind";
     GenerationFormValues.product := lit " AirFlex ";
     GenerationFormValues.imagePrompt := lit "  ";
     GenerationFormValues.targetPersona := [] |}.

(** Parsed request bodies. *)
Definition goodPayload : App.Payload :=
  {| App.theme := App.Str (lit " Spring Sneaker ");
     App.brandVoice := App.Str (lit "kind");
     App.product := App.Str (lit " AirFlex ");
     App.imagePrompt := App.Str (lit "  ");
     App.targetPersona := App.NotString |}.

Definition noThemePayload : App.Payload :=
  {| App.theme := App.NotString;
     App.brandVoice := App.Str (lit "kind");
     App.product := App.NotString;
     App.imagePrompt := App.NotString;
     App.targetPersona := App.NotString |}.

Definition blankVoicePayload : App.Payload :=
  {| App.theme := App.Str (lit "Spring Sneaker");
     App.brandVoice := App.Str (lit "   ");
     App.product := App.NotString;
     App.imagePrompt := App.NotString;
     App.targetPersona := App.NotString |}.

(** The request the adapter makes of [goodPayload]. *)
Definition goodRequest : DraftGenerationRequest.t :=
  {| DraftGenerationRequest.theme := lit "Spring Sneaker";
     DraftGenerationRequest.brandVoice := lit "kind";
     DraftGenerationRequest.product := Some (lit "AirFlex");
     DraftGenerationRequest.imagePrompt := None;
     DraftGenerationRequest.targetPersona := None |}.

End Memory.

(** * Properties *)

(** ** Strings *)

Lemma truthy_false (s : jsstring) : truthy s = false <-> s = [].
Proof. destruct s; simpl; split; congruence. Qed.

Lemma truthy_true (s : jsstring) : truthy s = true <-> s <> [].
Proof. destruct s; simpl; split; congruence. Qed.

Lemma trimStart_head (s : jsstring) (c : N) (r : jsstring) :
  trimStart s = c :: r -> isWhiteSpace c = false.
Proof.
  induction s as [|x s IH]; simpl; [discriminate|].
  destruct (isWhiteSpace x) eqn:E; [exact IH|].
  intros H. injection H as -> _. exact E.
Qed.

Lemma trimStart_keep (c : N) (r : jsstring) :
  isWhiteSpace c = false -> trimStart (c :: r) = c :: r.
Proof. intros H. simpl. now rewrite H. Qed.

Lemma trimStart_idem (s : jsstring) : trimStart (trimStart s) = trimStart s.
Proof.
  destruct (trimStart s) as [|c r] eqn:E; [reflexivity|].
  apply trimStart_keep. exact (trimStart_head _ _ _ E).
Qed.

Lemma trimEnd_snoc (s : jsstring) (c : N) :
  trimEnd (s ++ [c]) = if isWhiteSpace c then trimEnd s else s ++ [c].
Proof.
  unfold trimEnd. rewrite rev_app_distr. simpl.
  destruct (isWhiteSpace c); [reflexivity|].
  simpl. now rewrite rev_involutive.
Qed.

Lemma trimEnd_cons (c : N) (r : jsstring) :
  isWhiteSpace c = false -> trimEnd (c :: r) = c :: trimEnd r.
Proof.
  intros Hc. induction r as [|x r IH] using rev_ind.
  - unfold trimEnd. simpl. now rewrite Hc.
  - change (c :: r ++ [x]) with ((c :: r) ++ [x]).
    rewrite !trimEnd_snoc. destruct (isWhiteSpace x); [exact IH|reflexivity].
Qed.

Lemma trimEnd_idem (s : jsstring) : trimEnd (trimEnd s) = trimEnd s.
Proof.
  unfold trimEnd. rewrite rev_involutive. now rewrite trimStart_idem.
Qed.

Lemma trim_idem (s : jsstring) : trim (trim s) = trim s.
Proof.
  unfold trim.
  destruct (trimStart s) as [|c r] eqn:E; [reflexivity|].
  pose proof (trimStart_head _ _ _ E) as Hc.
  rewrite (trimEnd_cons c r Hc), (trimStart_keep _ _ Hc).
  rewrite <- (trimEnd_cons c r Hc). apply trimEnd_idem.
Qed.

Lemma trimmed_trim (s : jsstring) : trimmed (trim s).
Proof. apply trim_idem. Qed.

Lemma filter_sublist {A : Type} (f : A -> bool) (l : list A) :
  sublist (List.filter f l) l.
Proof.
  induction l as [|x l IH]; simpl; [constructor|].
  destruct (f x); now constructor.
Qed.

Lemma filter_all {A : Type} (f : A -> bool) (l : list A) :
  List.Forall (fun x => f x = true) l -> List.filter f l = l.
Proof.
  induction 1 as [|x l Hx _ IH]; simpl; [reflexivity|].
  now rewrite Hx, IH.
Qed.

Lemma map_trim_trimmed (l : list jsstring) :
  List.Forall trimmed l -> List.map trim l = l.
Proof.
  induction 1 as [|x l Hx _ IH]; simpl; [reflexivity|].
  now rewrite Hx, IH.
Qed.

(** ** The factory *)

(** [create] step by step: the three guards, then the clock. *)
Lemma create_unfold {S : Type} (input : DraftInput.t) (clock : DraftClock.t S)
  (s : S) :
  PostDraft.create input clock s =
  if negb (truthy (trim (DraftInput.theme input)))
  then (Threw (Error PostDraft.themeMessage), s)
  else if negb (truthy (trim (DraftInput.brandVoice input)))
  then (Threw (Error PostDraft.brandVoiceMessage), s)
  else if PostDraft.overLimit
            (PostDraft.normalizeHashtags (DraftInput.hashtags input))
  then (Threw (Error PostDraft.hashtagsMessage), s)
  else
    match DraftClock.now clock s with
    | (Returned t, s') =>
        (Returned
           (PostDraft.construct input (trim (DraftInput.theme input))
              (trim (DraftInput.brandVoice input))
              (PostDraft.normalizeHashtags (DraftInput.hashtags input)) t),
         s')
    | (Threw e, s') => (Threw e, s')
    end.
Proof.
  unfold PostDraft.create.
  destruct (negb (truthy (trim (DraftInput.theme input)))); [reflexivity|].
  destruct (negb (truthy (trim (DraftInput.brandVoice input)))); [reflexivity|].
  destruct (PostDraft.overLimit _); [reflexivity|].
  unfold bind, ret. destruct (DraftClock.now clock s) as [[t|e] s']; reflexivity.
Qed.

(** An accepted input passed all three guards, the clock was read, and
    the draft is the constructed one. *)
Lemma create_returned {S : Type} (input : DraftInput.t) (clock : DraftClock.t S)
  (s s' : S) (d : PostDraft.t) :
  PostDraft.create input clock s = (Returned d, s') ->
  trim (DraftInput.theme input) <> [] /\
  trim (DraftInput.brandVoice input) <> [] /\
  PostDraft.overLimit
    (PostDraft.normalizeHashtags (DraftInput.hashtags input)) = false /\
  exists t,
    DraftClock.now clock s = (Returned t, s') /\
    d = PostDraft.construct input (trim (DraftInput.theme input))
          (trim (DraftInput.brandVoice input))
          (PostDraft.normalizeHashtags (DraftInput.hashtags input)) t.
Proof.
  rewrite create_unfold.
  destruct (truthy (trim (DraftInput.theme input))) eqn:Et; simpl;
    [|discriminate].
  destruct (truthy (trim (DraftInput.brandVoice input))) eqn:Ev; simpl;
    [|discriminate].
  destruct (PostDraft.overLimit _) eqn:Eo; [discriminate|].
  destruct (DraftClock.now clock s) as [[t|e] s1] eqn:En; [|discriminate].
  intros H. injection H as <- <-.
  apply truthy_true in Et, Ev. eauto 10.
Qed.

(** A valid input is accepted as soon as the clock answers. *)
Lemma create_accepts {S : Type} (input : DraftInput.t) (clock : DraftClock.t S)
  (s s' : S) (t : Date.t) :
  trim (DraftInput.theme input) <> [] ->
  trim (DraftInput.brandVoice input) <> [] ->
  PostDraft.overLimit
    (PostDraft.normalizeHashtags (DraftInput.hashtags input)) = false ->
  DraftClock.now clock s = (Returned t, s') ->
  PostDraft.create input clock s =
  (Returned
     (PostDraft.construct input (trim (DraftInput.theme input))
        (trim (DraftInput.brandVoice input))
        (PostDraft.normalizeHashtags (DraftInput.hashtags input)) t),
   s').
Proof.
  intros Ht Hv Ho Hn. rewrite create_unfold.
  apply truthy_true in Ht, Hv. rewrite Ht, Hv, Ho, Hn. reflexivity.
Qed.

(** C4.  An input whose theme or brand voice is empty after trimming is
    refused with a validation error, before the clock is read; a draft that
    was created carries the trimmed theme and the trimmed brand voice, both
    non-empty; and an input with a non-blank theme and brand voice that
    passes the hashtag guard is accepted as soon as the clock answers. *)
Theorem create_theme_brandVoice {S : Type} (input : DraftInput.t)
  (clock : DraftClock.t S) (s : S) :
  (trim (DraftInput.theme input) = [] \/
   trim (DraftInput.brandVoice input) = [] ->
   refusedBy PostDraft.themeMessage (PostDraft.create input clock s) s \/
   refusedBy PostDraft.brandVoiceMessage (PostDraft.create input clock s) s)
  /\
  (forall d s',
     PostDraft.create input clock s = (Returned d, s') ->
     PostDraft.theme d = trim (DraftInput.theme input) /\
     PostDraft.brandVoice d = trim (DraftInput.brandVoice input) /\
     PostDraft.theme d <> [] /\ PostDraft.brandVoice d <> [])
  /\
  (trim (DraftInput.theme input) <> [] ->
   trim (DraftInput.brandVoice input) <> [] ->
   PostDraft.overLimit
     (PostDraft.normalizeHashtags (DraftInput.hashtags input)) = false ->
   forall t s',
     DraftClock.now clock s = (Returned t, s') ->
     exists d,
       PostDraft.create input clock s = (Returned d, s') /\
       PostDraft.theme d = trim (DraftInput.theme input) /\
       PostDraft.brandVoice d = trim (DraftInput.brandVoice input)).
Proof.
  split; [|split].
  - intros H. unfold refusedBy. rewrite create_unfold.
    destruct (truthy (trim (DraftInput.theme input))) eqn:Et; simpl;
      [|now left].
    destruct H as [H|H]; [rewrite H in Et; discriminate|].
    rewrite H. simpl. now right.
  - intros d s' H.
    destruct (create_returned _ _ _ _ _ H) as (Ht & Hv & _ & t & _ & ->).
    repeat split; assumption.
  - intros Ht Hv Ho t s' Hn. eexists. split.
    + apply create_accepts; eassumption.
    + split; reflexivity.
Qed.

(** The factory on a blank theme and on a padded input. *)
Lemma create_theme_brandVoice_witness :
  (refusedBy PostDraft.themeMessage
     (PostDraft.create Fakes.blankThemeInput Fakes.clock Fakes.start)
     Fakes.start \/
   refusedBy PostDraft.brandVoiceMessage
     (PostDraft.create Fakes.blankThemeInput Fakes.clock Fakes.start)
     Fakes.start) /\
  (exists d,
     PostDraft.create Fakes.paddedInput Fakes.clock Fakes.start =
       (Returned d, Fakes.start) /\
     PostDraft.theme d = trim (DraftInput.theme Fakes.paddedInput) /\
     PostDraft.brandVoice d = trim (DraftInput.brandVoice Fakes.paddedInput)) /\
  (exists d,
     PostDraft.create Fakes.paddedInput Fakes.clock Fakes.start =
       (Returned d, Fakes.start) /\
     PostDraft.theme d = lit "spring sneaker" /\
     PostDraft.brandVoice d = lit "kind").
Proof.
  split; [|split].
  - apply (proj1 (create_theme_brandVoice Fakes.blankThemeInput Fakes.clock
                    Fakes.start)).
    left. reflexivity.
  - apply (proj2 (proj2 (create_theme_brandVoice Fakes.paddedInput Fakes.clock
                           Fakes.start)))
      with (t := Date.mk (lit "2025-01-01T00:00:00.000Z")).
    + vm_compute. discriminate.
    + vm_compute. discriminate.
    + reflexivity.
    + reflexivity.
  - eexists. split; [reflexivity|].
    destruct (proj1 (proj2 (create_theme_brandVoice Fakes.paddedInput
                              Fakes.clock Fakes.start)) _ _ eq_refl)
      as (Ht & Hv & _).
    split; [exact Ht|exact Hv].
Defined.

Lemma normalizeHashtags_spec (tags : list jsstring) :
  let kept := List.filter truthy (List.map trim tags) in
  sublist kept (List.map trim tags) /\
  List.Forall (fun h => h <> [] /\ trimmed h) kept.
Proof.
  simpl. split; [apply filter_sublist|].
  apply List.Forall_forall. intros h Hh.
  apply List.filter_In in Hh as [Hin Ht].
  split; [now apply truthy_true|].
  apply List.in_map_iff in Hin as (x & <- & _). apply trimmed_trim.
Qed.

(** C5.  With [kept] the input's hashtags trimmed and the empty ones
    dropped: more than 25 of them make the factory fail, whatever the other
    fields; 25 or fewer, with a non-blank theme and brand voice, make it
    succeed as soon as the clock answers, and the draft's hashtags are
    exactly [kept], which lists trimmed, non-empty strings in the order of
    the input. *)
Theorem create_hashtag_limit {S : Type} (input : DraftInput.t)
  (clock : DraftClock.t S) (s : S) (tags : list jsstring) :
  DraftInput.hashtags input = Some tags ->
  let kept := List.filter truthy (List.map trim tags) in
  (25 < List.length kept ->
   exists message,
     refusedBy message (PostDraft.create input clock s) s /\
     (trim (DraftInput.theme input) <> [] ->
      trim (DraftInput.brandVoice input) <> [] ->
      message = PostDraft.hashtagsMessage))
  /\
  (List.length kept <= 25 ->
   trim (DraftInput.theme input) <> [] ->
   trim (DraftInput.brandVoice input) <> [] ->
   forall t s',
     DraftClock.now clock s = (Returned t, s') ->
     exists d,
       PostDraft.create input clock s = (Returned d, s') /\
       PostDraft.hashtags d = Some kept)
  /\
  sublist kept (List.map trim tags) /\
  List.Forall (fun h => h <> [] /\ trimmed h) kept.
Proof.
  intros Htags kept. split; [|split].
  - intros Hlen. unfold refusedBy. rewrite create_unfold, Htags. simpl.
    fold kept.
    destruct (truthy (trim (DraftInput.theme input))) eqn:Et; simpl.
    2:{ eexists. split; [reflexivity|].
        intros H. apply truthy_true in H. congruence. }
    destruct (truthy (trim (DraftInput.brandVoice input))) eqn:Ev; simpl.
    2:{ eexists. split; [reflexivity|].
        intros _ H. apply truthy_true in H. congruence. }
    assert (Nat.ltb 25 (List.length kept) = true) as ->
      by (apply Nat.ltb_lt; exact Hlen).
    eexists. split; [reflexivity|]. reflexivity.
  - intros Hlen Ht Hv t s' Hn. eexists. split.
    + apply create_accepts; try eassumption.
      rewrite Htags. simpl. fold kept. apply Nat.ltb_ge. exact Hlen.
    + unfold PostDraft.hashtags. simpl. rewrite Htags. reflexivity.
  - apply normalizeHashtags_spec.
Qed.

(** The factory at the limit: 26 hashtags are refused, 25 are kept. *)
Lemma create_hashtag_limit_witness :
  (exists message,
     refusedBy message
       (PostDraft.create (Fakes.taggedInput 26) Fakes.clock Fakes.start)
       Fakes.start /\
     message = PostDraft.hashtagsMessage) /\
  (exists d,
     PostDraft.create (Fakes.taggedInput 25) Fakes.clock Fakes.start =
       (Returned d, Fakes.start) /\
     PostDraft.hashtags d = Some (repeat (lit "x") 25)).
Proof.
  split.
  - destruct (proj1 (create_hashtag_limit (Fakes.taggedInput 26) Fakes.clock
                       Fakes.start (repeat (lit "x") 26) eq_refl))
      as (message & Hr & Hm).
    + vm_compute. lia.
    + exists message. split; [exact Hr|].
      apply Hm; vm_compute; discriminate.
  - apply (proj1 (proj2 (create_hashtag_limit (Fakes.taggedInput 25)
                           Fakes.clock Fakes.start (repeat (lit "x") 25)
                           eq_refl)))
      with (t := Date.mk (lit "2025-01-01T00:00:00.000Z")).
    + vm_compute. lia.
    + vm_compute. discriminate.
    + vm_compute. discriminate.
    + reflexivity.
Defined.

(** ** The record *)

Lemma toJSON_props (d : PostDraft.t) : PostDraft.toJSON d = PostDraft.props d.
Proof. destruct d as [[]]. reflexivity. Qed.

Lemma nullish_trim_present (o : option jsstring) :
  Supplied.presentTrimmed o -> Some (nullish (trim_opt o) []) = o.
Proof. destruct o as [x|]; simpl; [intros ->; reflexivity|contradiction]. Qed.

Lemma trim_opt_trimmed (o : option jsstring) :
  Supplied.trimmedIfPresent o -> trim_opt o = o.
Proof. destruct o as [x|]; simpl; [intros ->; reflexivity|reflexivity]. Qed.

(** Constructing from an input in normal form keeps every supplied
    field as it is. *)
Lemma construct_unchanged (input : DraftInput.t) (t : Date.t) :
  Supplied.normal input ->
  Supplied.unchanged input
    (PostDraft.toJSON
       (PostDraft.construct input (trim (DraftInput.theme input))
          (trim (DraftInput.brandVoice input))
          (PostDraft.normalizeHashtags (DraftInput.hashtags input)) t)).
Proof.
  intros (Ht & Hv & Hp & Hi & Hg & Hc & Hh & Ha).
  unfold Supplied.unchanged. simpl.
  rewrite Ht, Hv, (nullish_trim_present _ Hp), (nullish_trim_present _ Hi),
    (nullish_trim_present _ Hg), (trim_opt_trimmed _ Hc),
    (trim_opt_trimmed _ Ha).
  repeat split.
  destruct (DraftInput.hashtags input) as [ts|]; [|reflexivity].
  simpl. f_equal.
  rewrite map_trim_trimmed.
  - apply filter_all. eapply List.Forall_impl; [|exact Hh].
    intros h [_ Hne]. now apply truthy_true.
  - eapply List.Forall_impl; [|exact Hh]. now intros h [Htr _].
Qed.

(** C8, as the code has it.  For every input the factory accepts, [toJSON]
    of the created draft is the whole of its properties, in which every
    supplied field is present in the factory's normal form (strings
    trimmed, blank hashtags dropped, an absent product, image prompt or
    persona as the empty string); for an input already in that form every
    supplied field comes back as it was given. *)
Theorem toJSON_round_trip {S : Type} (input : DraftInput.t)
  (clock : DraftClock.t S) (s s' : S) (d : PostDraft.t) :
  PostDraft.create input clock s = (Returned d, s') ->
  PostDraft.toJSON d = PostDraft.props d /\
  Supplied.normalised input (PostDraft.toJSON d) /\
  (Supplied.normal input -> Supplied.unchanged input (PostDraft.toJSON d)).
Proof.
  intros H. split; [apply toJSON_props|].
  destruct (create_returned _ _ _ _ _ H) as (_ & _ & _ & t & _ & ->).
  split.
  - repeat split.
  - apply construct_unchanged.
Qed.

(** The record of a draft made from an input in normal form. *)
Lemma toJSON_round_trip_witness :
  exists d,
    PostDraft.create Fakes.normalInput Fakes.clock Fakes.start =
      (Returned d, Fakes.start) /\
    Supplied.unchanged Fakes.normalInput (PostDraft.toJSON d).
Proof.
  eexists. split; [reflexivity|].
  apply (toJSON_round_trip Fakes.normalInput Fakes.clock Fakes.start
           Fakes.start _ eq_refl).
  repeat split; repeat constructor; discriminate.
Defined.

(** C8, as stated, fails: the padded theme, the padded and the blank
    hashtag and the absent image prompt of an accepted input do not come
    back from [toJSON] as they were supplied. *)
Lemma toJSON_round_trip_counterexample :
  exists d,
    PostDraft.create Fakes.paddedInput Fakes.clock Fakes.start =
      (Returned d, Fakes.start) /\
    ~ Supplied.unchanged Fakes.paddedInput (PostDraft.toJSON d) /\
    DraftProps.theme (PostDraft.toJSON d) = lit "spring sneaker" /\
    DraftProps.hashtags (PostDraft.toJSON d) = Some [lit "a"; lit "b"] /\
    DraftProps.imagePrompt (PostDraft.toJSON d) = Some [].
Proof.
  eexists. split; [reflexivity|].
  split; [|repeat split].
  intros (H & _). vm_compute in H. discriminate.
Qed.

(** The record of a created draft, read back as an input, is in normal
    form: creating a draft from it again changes none of its fields. *)
Lemma created_record_normal {S : Type} (input : DraftInput.t)
  (clock : DraftClock.t S) (s s' : S) (d : PostDraft.t) :
  PostDraft.create input clock s = (Returned d, s') ->
  Supplied.normal (Supplied.asInput (PostDraft.toJSON d)).
Proof.
  intros H.
  destruct (create_returned _ _ _ _ _ H) as (_ & _ & _ & t & _ & ->).
  assert (forall o, Supplied.presentTrimmed (Some (nullish (trim_opt o) [])))
    as Hp by (intros [x|]; simpl; [apply trimmed_trim|reflexivity]).
  assert (forall o, Supplied.trimmedIfPresent (trim_opt o))
    as Hq by (intros [x|]; simpl; [apply trimmed_trim|exact I]).
  unfold Supplied.normal. simpl.
  repeat split; try apply trimmed_trim; try apply Hp; try apply Hq.
  destruct (DraftInput.hashtags input) as [ts|]; simpl; [|exact I].
  eapply List.Forall_impl; [|apply (normalizeHashtags_spec ts)].
  intros h [Hne Htr]. now split.
Qed.

Lemma create_idempotent {S S' : Type} (input : DraftInput.t)
  (clock : DraftClock.t S) (s s' : S) (d : PostDraft.t)
  (clock' : DraftClock.t S') (s1 s1' : S') (d' : PostDraft.t) :
  PostDraft.create input clock s = (Returned d, s') ->
  PostDraft.create (Supplied.asInput (PostDraft.toJSON d)) clock' s1 =
    (Returned d', s1') ->
  Supplied.unchanged (Supplied.asInput (PostDraft.toJSON d))
    (PostDraft.toJSON d').
Proof.
  intros H H'.
  destruct (create_returned _ _ _ _ _ H') as (_ & _ & _ & t & _ & ->).
  apply construct_unchanged. exact (created_record_normal _ _ _ _ _ H).
Qed.

(** ** Identity assignment *)

(** C9.  [assignId] on the draft at address [this], holding the properties
    [p]: the result is an object at an address that was free, the heap is
    otherwise as before, so the receiver still holds [p], and the new
    draft has the given id and, field by field, the theme, brand voice,
    product, image prompt, persona, caption, hashtags, alt text, status and
    creation time of the receiver. *)
Theorem assignId_new_draft (h : gmap positive DraftProps.t) (this : positive)
  (p : DraftProps.t) (id : jsstring) :
  h !! this = Some p ->
  let d := PostDraft.mk p in
  let d' := PostDraft.assignId d id in
  exists l h',
    Heap.assignId h this id = Some (l, h') /\
    h !! l = None /\
    h' !! l = Some (PostDraft.props d') /\
    h' !! this = Some p /\
    (forall a, a <> l -> h' !! a = h !! a) /\
    PostDraft.id d' = Some id /\
    PostDraft.theme d' = PostDraft.theme d /\
    PostDraft.brandVoice d' = PostDraft.brandVoice d /\
    PostDraft.product d' = PostDraft.product d /\
    PostDraft.imagePrompt d' = PostDraft.imagePrompt d /\
    PostDraft.targetPersona d' = PostDraft.targetPersona d /\
    PostDraft.caption d' = PostDraft.caption d /\
    PostDraft.hashtags d' = PostDraft.hashtags d /\
    PostDraft.altText d' = PostDraft.altText d /\
    PostDraft.status d' = PostDraft.status d /\
    PostDraft.createdAt d' = PostDraft.createdAt d.
Proof.
  intros Hthis d d'.
  assert (h !! fresh (dom h) = None) as Hfresh
    by (apply not_elem_of_dom, is_fresh).
  exists (fresh (dom h)), (<[fresh (dom h) := PostDraft.props d']> h).
  split; [unfold Heap.assignId, Heap.new; now rewrite Hthis|].
  split; [exact Hfresh|].
  split; [apply lookup_insert_eq|].
  split.
  { rewrite lookup_insert_ne; [exact Hthis|]. intros E. congruence. }
  split.
  { intros a Ha. now rewrite lookup_insert_ne. }
  repeat split.
Qed.

(** A heap with one draft, the padded input's, at address 1. *)
Lemma assignId_new_draft_witness :
  let p :=
    PostDraft.props
      (PostDraft.construct Fakes.paddedInput (lit "spring sneaker")
         (lit "kind") (Some [lit "a"; lit "b"])
         (Date.mk (lit "2025-01-01T00:00:00.000Z"))) in
  exists l h',
    Heap.assignId {[ 1%positive := p ]} 1%positive (lit "draft-123") =
      Some (l, h') /\
    h' !! 1%positive = Some p /\
    l <> 1%positive /\
    DraftProps.id <$> h' !! l = Some (Some (lit "draft-123")).
Proof.
  intros p.
  destruct (assignId_new_draft {[ 1%positive := p ]} 1%positive p
              (lit "draft-123") (lookup_singleton_eq _ _))
    as (l & h' & Ha & Hf & Hl & Ht & _).
  exists l, h'. split; [exact Ha|]. split; [exact Ht|]. split.
  - intros ->. rewrite lookup_singleton_eq in Hf. discriminate.
  - rewrite Hl. reflexivity.
Defined.

(** ** The use case on spied ports *)

(** [execute], call by call. *)
Lemma execute_spied_unfold {World : Type} (u : CreateDraftUseCase.t World)
  (input : CreateDraftInput.t) (w : World) (l : list Call) :
  CreateDraftUseCase.execute (Spy.useCase u) input (Spy.mk w l) =
  let i := CreateDraftInput.widen input in
  if negb (truthy (trim (DraftInput.theme i)))
  then (Threw (Error PostDraft.themeMessage), Spy.mk w l)
  else if negb (truthy (trim (DraftInput.brandVoice i)))
  then (Threw (Error PostDraft.brandVoiceMessage), Spy.mk w l)
  else if PostDraft.overLimit
            (PostDraft.normalizeHashtags (DraftInput.hashtags i))
  then (Threw (Error PostDraft.hashtagsMessage), Spy.mk w l)
  else
    match DraftClock.now (CreateDraftUseCase.clock u) w with
    | (Threw e, w1) => (Threw e, Spy.mk w1 (l ++ [CallNow]))
    | (Returned t, w1) =>
        let created :=
          PostDraft.construct i (trim (DraftInput.theme i))
            (trim (DraftInput.brandVoice i))
            (PostDraft.normalizeHashtags (DraftInput.hashtags i)) t in
        match IdProvider.next (CreateDraftUseCase.idProvider u) w1 with
        | (Threw e, w2) => (Threw e, Spy.mk w2 (l ++ [CallNow; CallNext]))
        | (Returned id, w2) =>
            let d := PostDraft.assignId created id in
            match
              DraftRepository.save (CreateDraftUseCase.repository u) d w2
            with
            | (Threw e, w3) =>
                (Threw e, Spy.mk w3 (l ++ [CallNow; CallNext; CallSave d]))
            | (Returned _, w3) =>
                (Returned (CreateDraftUseCase.summary (PostDraft.toJSON d)),
                 Spy.mk w3 (l ++ [CallNow; CallNext; CallSave d]))
            end
        end
    end.
Proof.
  unfold CreateDraftUseCase.execute, bind. rewrite create_unfold. cbv zeta.
  destruct (negb (truthy (trim (DraftInput.theme _)))); [reflexivity|].
  destruct (negb (truthy (trim (DraftInput.brandVoice _)))); [reflexivity|].
  destruct (PostDraft.overLimit _); [reflexivity|].
  simpl. unfold Spy.record. simpl.
  destruct (DraftClock.now (CreateDraftUseCase.clock u) w) as [[t|e] w1];
    simpl; [|reflexivity].
  unfold Spy.record. simpl.
  destruct (IdProvider.next (CreateDraftUseCase.idProvider u) w1)
    as [[id|e] w2]; simpl; rewrite <- ?app_assoc; [|reflexivity].
  unfold Spy.record. simpl.
  destruct (DraftRepository.save _ _ w2) as [[[]|e] w3]; simpl;
    rewrite <- ?app_assoc; reflexivity.
Qed.

(** A returning [execute]: the factory accepted, [next] gave an id,
    [save] took the identified draft, and those were all its calls. *)
Lemma execute_returned {World : Type} (u : CreateDraftUseCase.t World)
  (input : CreateDraftInput.t) (w : World) (l : list Call)
  (result : DraftSummary.t) (st : Spy.Log World) :
  CreateDraftUseCase.execute (Spy.useCase u) input (Spy.mk w l) =
    (Returned result, st) ->
  exists created w1 id w2 w3,
    PostDraft.create (CreateDraftInput.widen input)
      (CreateDraftUseCase.clock u) w = (Returned created, w1) /\
    IdProvider.next (CreateDraftUseCase.idProvider u) w1 = (Returned id, w2) /\
    DraftRepository.save (CreateDraftUseCase.repository u)
      (PostDraft.assignId created id) w2 = (Returned tt, w3) /\
    st = Spy.mk w3
           (l ++ [CallNow; CallNext; CallSave (PostDraft.assignId created id)]) /\
    result =
      CreateDraftUseCase.summary
        (PostDraft.toJSON (PostDraft.assignId created id)) /\
    DraftSummary.id result = id.
Proof.
  rewrite execute_spied_unfold. cbv zeta.
  rewrite (create_unfold (CreateDraftInput.widen input)
             (CreateDraftUseCase.clock u) w).
  destruct (negb (truthy (trim (DraftInput.theme _)))); [discriminate|].
  destruct (negb (truthy (trim (DraftInput.brandVoice _)))); [discriminate|].
  destruct (PostDraft.overLimit _); [discriminate|].
  destruct (DraftClock.now _ w) as [[t|e] w1]; [|discriminate].
  destruct (IdProvider.next _ w1) as [[id|e] w2] eqn:En; [|discriminate].
  destruct (DraftRepository.save _ _ w2) as [[[]|e] w3] eqn:Es;
    [|discriminate].
  intros H. injection H as <- <-.
  eexists _, w1, id, w2, w3. split; [reflexivity|]. split; [exact En|].
  split; [exact Es|]. repeat split.
Qed.

(** C6.  On spied ports, started in world [w] with the calls [l] noted so
    far.  When [execute] returns, it has made exactly the calls [now],
    [next] and one [save]; the saved draft is the created one with the id
    that [next] returned, the summary is that draft's record, with that id
    and the trimmed content.  When the factory refuses the input, [execute]
    throws the same error with no call made and the world untouched.  The
    summary of a record without caption, hashtags or alt text has the empty
    string, the empty list and the empty string there. *)
Theorem execute_saves_once {World : Type} (u : CreateDraftUseCase.t World)
  (input : CreateDraftInput.t) (w : World) (l : list Call) :
  let r := CreateDraftUseCase.execute (Spy.useCase u) input (Spy.mk w l) in
  (forall result st,
     r = (Returned result, st) ->
     exists created w1 id w2 w3,
       PostDraft.create (CreateDraftInput.widen input)
         (CreateDraftUseCase.clock u) w = (Returned created, w1) /\
       IdProvider.next (CreateDraftUseCase.idProvider u) w1 =
         (Returned id, w2) /\
       let d := PostDraft.assignId created id in
       DraftRepository.save (CreateDraftUseCase.repository u) d w2 =
         (Returned tt, w3) /\
       st = Spy.mk w3 (l ++ [CallNow; CallNext; CallSave d]) /\
       List.filter Spy.isSave [CallNow; CallNext; CallSave d] = [CallSave d] /\
       PostDraft.id d = Some id /\
       result = CreateDraftUseCase.summary (PostDraft.toJSON d) /\
       DraftSummary.id result = id /\
       DraftSummary.caption result = trim (CreateDraftInput.caption input) /\
       DraftSummary.hashtags result =
         List.filter truthy (List.map trim (CreateDraftInput.hashtags input)) /\
       DraftSummary.altText result = trim (CreateDraftInput.altText input))
  /\
  (trim (CreateDraftInput.theme input) = [] \/
   trim (CreateDraftInput.brandVoice input) = [] \/
   25 < List.length
          (List.filter truthy
             (List.map trim (CreateDraftInput.hashtags input))) ->
   exists message,
     refusedBy message
       (PostDraft.create (CreateDraftInput.widen input)
          (CreateDraftUseCase.clock u) w) w /\
     refusedBy message r (Spy.mk w l))
  /\
  (forall json,
     (DraftProps.caption json = None ->
      DraftSummary.caption (CreateDraftUseCase.summary json) = []) /\
     (DraftProps.hashtags json = None ->
      DraftSummary.hashtags (CreateDraftUseCase.summary json) = []) /\
     (DraftProps.altText json = None ->
      DraftSummary.altText (CreateDraftUseCase.summary json) = []) /\
     (forall c, DraftProps.caption json = Some c ->
      DraftSummary.caption (CreateDraftUseCase.summary json) = c) /\
     (forall hs, DraftProps.hashtags json = Some hs ->
      DraftSummary.hashtags (CreateDraftUseCase.summary json) = hs) /\
     (forall a, DraftProps.altText json = Some a ->
      DraftSummary.altText (CreateDraftUseCase.summary json) = a)).
Proof.
  intros r. subst r.
  split; [|split].
  - intros result st H.
    destruct (execute_returned u input w l result st H)
      as (created & w1 & id & w2 & w3 & Hc & Hn & Hs & -> & -> & _).
    exists created, w1, id, w2, w3.
    split; [exact Hc|]. split; [exact Hn|]. cbv zeta. split; [exact Hs|].
    destruct (create_returned _ _ _ _ _ Hc) as (_ & _ & _ & t & _ & ->).
    repeat split.
  - intros H. unfold refusedBy. rewrite execute_spied_unfold. cbv zeta.
    rewrite (create_unfold (CreateDraftInput.widen input)
               (CreateDraftUseCase.clock u) w).
    remember (CreateDraftInput.widen input) as i eqn:Ei.
    destruct (truthy (trim (DraftInput.theme i))) eqn:Et; simpl;
      [|eexists; split; reflexivity].
    destruct (truthy (trim (DraftInput.brandVoice i))) eqn:Ev; simpl;
      [|eexists; split; reflexivity].
    destruct (PostDraft.overLimit _) eqn:Eo;
      [eexists; split; reflexivity|].
    exfalso. subst i. simpl in Et, Ev, Eo. apply Nat.ltb_ge in Eo.
    destruct H as [H|[H|H]].
    + rewrite H in Et. discriminate.
    + rewrite H in Ev. discriminate.
    + lia.
  - intros json. unfold CreateDraftUseCase.summary. simpl.
    repeat split; intros; match goal with H : _ = _ |- _ => rewrite H end;
      reflexivity.
Qed.

(** The use case on the sneaker input, and on an input with an empty
    theme. *)
Lemma execute_saves_once_witness :
  (exists result st d,
     CreateDraftUseCase.execute (Spy.useCase Fakes.useCase) Fakes.sneakerInput
       (Spy.mk Fakes.start []) = (Returned result, st) /\
     Spy.calls st = [CallNow; CallNext; CallSave d] /\
     PostDraft.id d = Some (DraftSummary.id result)) /\
  (exists message,
     refusedBy message
       (CreateDraftUseCase.execute (Spy.useCase Fakes.useCase)
          Fakes.emptyThemeInput (Spy.mk Fakes.start []))
       (Spy.mk Fakes.start [])) /\
  DraftSummary.caption
    (CreateDraftUseCase.summary
       (PostDraft.toJSON
          (PostDraft.construct (Fakes.taggedInput 0) (lit "theme") (lit "kind")
             None (Date.mk (lit "2025-01-01T00:00:00.000Z"))))) = [].
Proof.
  split; [|split].
  - destruct (proj1 (execute_saves_once Fakes.useCase Fakes.sneakerInput
                       Fakes.start []) _ _ eq_refl)
      as (created & w1 & id & w2 & w3 & _ & _ & _ & Hst & _ & Hid & _ & Hsid & _).
    eexists _, _, (PostDraft.assignId created id).
    split; [vm_compute; reflexivity|]. split.
    + exact (f_equal Spy.calls Hst).
    + exact (eq_trans Hid (f_equal Some (eq_sym Hsid))).
  - destruct (proj1 (proj2 (execute_saves_once Fakes.useCase
                              Fakes.emptyThemeInput Fakes.start [])))
      as (message & _ & Hr).
    + left. reflexivity.
    + exists message. exact Hr.
  - apply (proj1 (proj2 (proj2 (execute_saves_once Fakes.useCase
                                  Fakes.sneakerInput Fakes.start [])) _)).
    reflexivity.
Defined.

(** The calls of [execute]: nothing but the clock, the id provider and at
    most one [save], the last call; one [save] exactly when it returns. *)
Lemma execute_calls {World : Type} (u : CreateDraftUseCase.t World)
  (input : CreateDraftInput.t) (w : World) (l : list Call) :
  exists pre,
    Spy.calls
      (after (CreateDraftUseCase.execute (Spy.useCase u) input (Spy.mk w l))) =
      l ++ pre /\
    (Spy.steps pre = [] \/ Spy.steps pre = [Spy.Save]) /\
    (forall result st,
       CreateDraftUseCase.execute (Spy.useCase u) input (Spy.mk w l) =
         (Returned result, st) ->
       Spy.steps pre = [Spy.Save]) /\
    (forall e st,
       CreateDraftUseCase.execute (Spy.useCase u) input (Spy.mk w l) =
         (Threw e, st) ->
       List.filter Spy.isSchedule pre = []).
Proof.
  rewrite execute_spied_unfold. cbv zeta.
  destruct (negb (truthy (trim (DraftInput.theme _)))).
  { exists []. rewrite app_nil_r. repeat split; auto; discriminate. }
  destruct (negb (truthy (trim (DraftInput.brandVoice _)))).
  { exists []. rewrite app_nil_r. repeat split; auto; discriminate. }
  destruct (PostDraft.overLimit _).
  { exists []. rewrite app_nil_r. repeat split; auto; discriminate. }
  destruct (DraftClock.now _ w) as [[t|e] w1].
  2:{ exists [CallNow]. repeat split; auto; discriminate. }
  destruct (IdProvider.next _ w1) as [[id|e] w2].
  2:{ exists [CallNow; CallNext]. repeat split; auto; discriminate. }
  destruct (DraftRepository.save _ _ w2) as [[[]|e] w3]; eexists [_; _; _];
    repeat split; auto.
Qed.

(** ** The workflow on spied ports *)

(** [run], call by call. *)
Lemma run_spied_unfold {World : Type} (wf : DraftGenerationWorkflow.t World)
  (input : DraftGenerationRequest.t) (w : World) (l : list Call) :
  DraftGenerationWorkflow.run (Spy.workflow wf) input (Spy.mk w l) =
  let gi := DraftGenerationWorkflow.generationInput input in
  match
    ContentGenerator.generate (DraftGenerationWorkflow.contentGenerator wf) gi w
  with
  | (Threw e, w1) => (Threw e, Spy.mk w1 (l ++ [CallGenerate gi]))
  | (Returned g, w1) =>
      match
        CreateDraftUseCase.execute
          (Spy.useCase (DraftGenerationWorkflow.createDraft wf))
          (DraftGenerationWorkflow.draftInput input g)
          (Spy.mk w1 (l ++ [CallGenerate gi]))
      with
      | (Threw e, st) => (Threw e, st)
      | (Returned result, st) =>
          let si :=
            {| ScheduleInput.draftId := DraftSummary.id result;
               ScheduleInput.prompt :=
                 DraftGenerationWorkflow.imagePromptOf input |} in
          match
            ImageScheduler.schedule
              (DraftGenerationWorkflow.imageScheduler wf) si (Spy.world st)
          with
          | (Threw e, w3) =>
              (Threw e, Spy.mk w3 (Spy.calls st ++ [CallSchedule si]))
          | (Returned _, w3) =>
              (Returned result, Spy.mk w3 (Spy.calls st ++ [CallSchedule si]))
          end
      end
  end.
Proof.
  unfold DraftGenerationWorkflow.run, bind. cbv zeta.
  simpl. unfold Spy.record at 1. simpl.
  destruct (ContentGenerator.generate _ _ w) as [[g|e] w1]; [|reflexivity].
  destruct (CreateDraftUseCase.execute _ _ _) as [[result|e] st];
    [|reflexivity].
  unfold Spy.record. simpl.
  destruct (ImageScheduler.schedule _ _ _) as [[?|e] w3]; reflexivity.
Qed.

(** Spying changes neither what the use case answers nor what it does to
    the world. *)
Lemma spy_execute {World : Type} (u : CreateDraftUseCase.t World)
  (input : CreateDraftInput.t) (w : World) (l : list Call) :
  let r := CreateDraftUseCase.execute u input w in
  let r' := CreateDraftUseCase.execute (Spy.useCase u) input (Spy.mk w l) in
  outcome r' = outcome r /\ Spy.world (after r') = after r.
Proof.
  cbv zeta. rewrite execute_spied_unfold. cbv zeta.
  unfold CreateDraftUseCase.execute, bind. rewrite create_unfold.
  destruct (negb (truthy (trim (DraftInput.theme _)))); [now split|].
  destruct (negb (truthy (trim (DraftInput.brandVoice _)))); [now split|].
  destruct (PostDraft.overLimit _); [now split|].
  destruct (DraftClock.now _ w) as [[t|e] w1]; [|now split].
  destruct (IdProvider.next _ w1) as [[id|e] w2]; [|now split].
  destruct (DraftRepository.save _ _ w2) as [[[]|e] w3]; now split.
Qed.

(** Nor does it change the workflow. *)
Lemma spy_run {World : Type} (wf : DraftGenerationWorkflow.t World)
  (input : DraftGenerationRequest.t) (w : World) (l : list Call) :
  let r := DraftGenerationWorkflow.run wf input w in
  let r' := DraftGenerationWorkflow.run (Spy.workflow wf) input (Spy.mk w l) in
  outcome r' = outcome r /\ Spy.world (after r') = after r.
Proof.
  cbv zeta. rewrite run_spied_unfold. cbv zeta.
  unfold DraftGenerationWorkflow.run, bind.
  destruct (ContentGenerator.generate _ _ w) as [[g|e] w1]; [|now split].
  destruct (spy_execute (DraftGenerationWorkflow.createDraft wf)
              (DraftGenerationWorkflow.draftInput input g) w1
              (l ++ [CallGenerate (DraftGenerationWorkflow.generationInput input)]))
    as [Ho Hw].
  destruct (CreateDraftUseCase.execute (Spy.useCase _) _ _)
    as [[result|e] st];
  destruct (CreateDraftUseCase.execute
              (DraftGenerationWorkflow.createDraft wf) _ w1)
    as [[result'|e'] w2];
    simpl in Ho, Hw; try discriminate; subst.
  - injection Ho as ->.
    destruct (ImageScheduler.schedule _ _ _) as [[?|e] w3]; now split.
  - injection Ho as ->. now split.
Qed.

(** C1.  One [run] on spied ports, started in world [w] with the calls
    [l] noted so far.  Of the three steps it calls [generate] first, [save]
    only after it and [schedule] only after [save], each at most once, and
    all three when it returns.  When [generate] fails, [run] fails with the
    same error and [generate] was its only call: no draft is made, saved or
    scheduled.  When the use case fails, [run] fails with the same error in
    the state the use case left, without a call to [schedule]. *)
Theorem run_order {World : Type} (wf : DraftGenerationWorkflow.t World)
  (input : DraftGenerationRequest.t) (w : World) (l : list Call) :
  let gi := DraftGenerationWorkflow.generationInput input in
  let r := DraftGenerationWorkflow.run (Spy.workflow wf) input (Spy.mk w l) in
  (exists new,
     Spy.calls (after r) = l ++ new /\
     (Spy.steps new = [Spy.Generate] \/
      Spy.steps new = [Spy.Generate; Spy.Save] \/
      Spy.steps new = [Spy.Generate; Spy.Save; Spy.Schedule]) /\
     (forall result st,
        r = (Returned result, st) ->
        Spy.steps new = [Spy.Generate; Spy.Save; Spy.Schedule]))
  /\
  (forall e w1,
     ContentGenerator.generate (DraftGenerationWorkflow.contentGenerator wf)
       gi w = (Threw e, w1) ->
     r = (Threw e, Spy.mk w1 (l ++ [CallGenerate gi])))
  /\
  (forall g w1 e st,
     ContentGenerator.generate (DraftGenerationWorkflow.contentGenerator wf)
       gi w = (Returned g, w1) ->
     CreateDraftUseCase.execute
       (Spy.useCase (DraftGenerationWorkflow.createDraft wf))
       (DraftGenerationWorkflow.draftInput input g)
       (Spy.mk w1 (l ++ [CallGenerate gi])) = (Threw e, st) ->
     r = (Threw e, st) /\
     exists new,
       Spy.calls st = l ++ new /\ List.filter Spy.isSchedule new = []).
Proof.
  intros gi r. subst r. rewrite run_spied_unfold. cbv zeta. fold gi.
  destruct (ContentGenerator.generate _ gi w) as [[g|e] w1].
  - destruct (execute_calls (DraftGenerationWorkflow.createDraft wf)
                (DraftGenerationWorkflow.draftInput input g) w1
                (l ++ [CallGenerate gi]))
      as (pre & Hcalls & Hsteps & Hret & Hthrow).
    destruct (CreateDraftUseCase.execute _ _ _) as [[result|e] st] eqn:E.
    + simpl in Hcalls. specialize (Hret _ _ eq_refl).
      split; [|split; [discriminate|]].
      * exists ([CallGenerate gi] ++ pre ++ [CallSchedule
                  {| ScheduleInput.draftId := DraftSummary.id result;
                     ScheduleInput.prompt :=
                       DraftGenerationWorkflow.imagePromptOf input |}]).
        assert (Spy.steps
                  ([CallGenerate gi] ++ pre ++ [CallSchedule
                     {| ScheduleInput.draftId := DraftSummary.id result;
                        ScheduleInput.prompt :=
                          DraftGenerationWorkflow.imagePromptOf input |}]) =
                [Spy.Generate; Spy.Save; Spy.Schedule]) as Hall.
        { unfold Spy.steps in *. rewrite !omap_app, Hret. reflexivity. }
        destruct (ImageScheduler.schedule _ _ _) as [[?|e] w3]; simpl;
          rewrite Hcalls, <- !app_assoc; (split; [reflexivity|]); auto.
      * intros g' w1' e st' Hg He. injection Hg as <- <-.
        rewrite E in He. discriminate.
    + simpl in Hcalls. specialize (Hthrow _ _ eq_refl).
      split; [|split; [discriminate|]].
      * exists ([CallGenerate gi] ++ pre). simpl.
        rewrite Hcalls, <- app_assoc. split; [reflexivity|].
        split; [|discriminate].
        unfold Spy.steps in *. simpl.
        destruct Hsteps as [-> | ->]; auto.
      * intros g' w1' e' st' Hg He. injection Hg as <- <-.
        rewrite E in He. injection He as <- <-. split; [reflexivity|].
        exists ([CallGenerate gi] ++ pre).
        rewrite Hcalls, <- app_assoc. split; [reflexivity|].
        simpl. exact Hthrow.
  - split; [|split].
    + exists [CallGenerate gi]. simpl. split; [reflexivity|].
      split; [auto|discriminate].
    + intros e' w1' H. injection H as <- <-. reflexivity.
    + discriminate.
Qed.

(** A run that returns, a run whose generator rejects, and a run on an
    empty theme. *)
Lemma run_order_witness :
  (exists new,
     Spy.calls
       (after
          (DraftGenerationWorkflow.run (Spy.workflow (Fakes.workflowWith None))
             Fakes.sneakerRequest (Spy.mk Fakes.start []))) = [] ++ new /\
     Spy.steps new = [Spy.Generate; Spy.Save; Spy.Schedule]) /\
  DraftGenerationWorkflow.run (Spy.workflow Fakes.failingWorkflow)
    Fakes.sneakerRequest (Spy.mk Fakes.start []) =
    (Threw (Rejected 1%N),
     Spy.mk Fakes.start
       [CallGenerate
          (DraftGenerationWorkflow.generationInput Fakes.sneakerRequest)]) /\
  (exists e st,
     DraftGenerationWorkflow.run (Spy.workflow (Fakes.workflowWith None))
       Fakes.emptyThemeRequest (Spy.mk Fakes.start []) = (Threw e, st) /\
     exists new, Spy.calls st = [] ++ new /\ List.filter Spy.isSchedule new = []).
Proof.
  split; [|split].
  - destruct (proj1 (run_order (Fakes.workflowWith None) Fakes.sneakerRequest
                       Fakes.start []))
      as (new & Hcalls & _ & Hret).
    exists new. split; [exact Hcalls|].
    eapply Hret. vm_compute. reflexivity.
  - apply (proj1 (proj2 (run_order Fakes.failingWorkflow Fakes.sneakerRequest
                           Fakes.start []))).
    reflexivity.
  - exists (Error PostDraft.themeMessage),
      (Spy.mk Fakes.start
         [CallGenerate
            (DraftGenerationWorkflow.generationInput Fakes.emptyThemeRequest)]).
    apply (proj2 (proj2 (run_order (Fakes.workflowWith None)
                           Fakes.emptyThemeRequest Fakes.start []))
             Fakes.generated Fakes.start).
    + reflexivity.
    + reflexivity.
Defined.

(** ** The image prompt *)

Lemma imagePromptOf_cases (input : DraftGenerationRequest.t) :
  (DraftGenerationRequest.imagePrompt input = None ->
   DraftGenerationWorkflow.imagePromptOf input =
     DraftGenerationRequest.theme input) /\
  (forall p,
     DraftGenerationRequest.imagePrompt input = Some p ->
     trim p = [] ->
     DraftGenerationWorkflow.imagePromptOf input =
       DraftGenerationRequest.theme input) /\
  (forall p,
     DraftGenerationRequest.imagePrompt input = Some p ->
     trim p <> [] ->
     DraftGenerationWorkflow.imagePromptOf input = trim p).
Proof.
  unfold DraftGenerationWorkflow.imagePromptOf. repeat split.
  - intros ->. reflexivity.
  - intros p -> Hp. simpl. rewrite Hp. reflexivity.
  - intros p -> Hp. simpl. apply truthy_true in Hp. now rewrite Hp.
Qed.

(** The [schedule] call of a [run], if there is one, is its last call and
    carries the id of the summary and the computed prompt. *)
Lemma run_schedule_call {World : Type} (wf : DraftGenerationWorkflow.t World)
  (input : DraftGenerationRequest.t) (w : World) (l new : list Call)
  (si : ScheduleInput.t) :
  Spy.calls
    (after (DraftGenerationWorkflow.run (Spy.workflow wf) input (Spy.mk w l))) =
    l ++ new ->
  In (CallSchedule si) new ->
  ScheduleInput.prompt si = DraftGenerationWorkflow.imagePromptOf input.
Proof.
  rewrite run_spied_unfold. cbv zeta.
  destruct (ContentGenerator.generate _ _ w) as [[g|e] w1].
  - destruct (execute_calls (DraftGenerationWorkflow.createDraft wf)
                (DraftGenerationWorkflow.draftInput input g) w1
                (l ++ [CallGenerate
                         (DraftGenerationWorkflow.generationInput input)]))
      as (pre & Hcalls & Hsteps & Hret & Hthrow).
    assert (forall c, In c pre -> Spy.isSchedule c = false) as Hpre.
    { intros c Hc. destruct c; try reflexivity.
      assert (In Spy.Schedule (Spy.steps pre)) as Hin.
      { unfold Spy.steps. apply list_elem_of_In, list_elem_of_omap.
        eexists. split; [apply list_elem_of_In; exact Hc|reflexivity]. }
      destruct Hsteps as [H|H]; rewrite H in Hin; simpl in Hin;
        intuition discriminate. }
    destruct (CreateDraftUseCase.execute _ _ _) as [[result|e] st];
      simpl in Hcalls.
    + destruct (ImageScheduler.schedule _ _ _) as [[?|e] w3]; simpl;
        rewrite Hcalls, <- !app_assoc; intros H%app_inv_head; subst new;
        intros Hin; simpl in Hin;
        (destruct Hin as [Hin|Hin]; [discriminate|]);
        (apply in_app_or in Hin as [Hin|Hin];
         [apply Hpre in Hin; discriminate|]);
        (destruct Hin as [Hin|[]]; injection Hin as <-; reflexivity).
    + simpl. rewrite Hcalls, <- !app_assoc. intros H%app_inv_head. subst new.
      intros Hin. simpl in Hin. destruct Hin as [Hin|Hin]; [discriminate|].
      apply Hpre in Hin. discriminate.
  - simpl. intros H%app_inv_head. subst new.
    intros [Hin|[]]. discriminate.
Qed.

(** C2, as the code has it.  The prompt of the [schedule] call a [run]
    makes: with the image prompt absent or blank after trimming it is the
    theme of the request as it was passed in, which is the trimmed theme
    when the theme has no surrounding white space; with a trimmed image
    prompt that is not empty it is that trimmed image prompt. *)
Theorem run_prompt {World : Type} (wf : DraftGenerationWorkflow.t World)
  (input : DraftGenerationRequest.t) (w : World) (l new : list Call)
  (si : ScheduleInput.t) :
  Spy.calls
    (after (DraftGenerationWorkflow.run (Spy.workflow wf) input (Spy.mk w l))) =
    l ++ new ->
  In (CallSchedule si) new ->
  (DraftGenerationRequest.imagePrompt input = None \/
   (exists p,
      DraftGenerationRequest.imagePrompt input = Some p /\ trim p = []) ->
   ScheduleInput.prompt si = DraftGenerationRequest.theme input /\
   (trimmed (DraftGenerationRequest.theme input) ->
    ScheduleInput.prompt si = trim (DraftGenerationRequest.theme input)))
  /\
  (forall p,
     DraftGenerationRequest.imagePrompt input = Some p ->
     trim p <> [] ->
     ScheduleInput.prompt si = trim p).
Proof.
  intros Hcalls Hin.
  rewrite (run_schedule_call wf input w l new si Hcalls Hin).
  destruct (imagePromptOf_cases input) as (Hnone & Hblank & Hgiven).
  split.
  - intros H.
    assert (DraftGenerationWorkflow.imagePromptOf input =
            DraftGenerationRequest.theme input) as ->.
    { destruct H as [H|(p & H & Hp)]; eauto. }
    split; [reflexivity|]. intros Ht. symmetry. exact Ht.
  - exact Hgiven.
Qed.

(** The sneaker request names an image prompt; the spring request is
    trimmed and names a blank one. *)
Lemma run_prompt_witness :
  (exists si,
     In (CallSchedule si)
       (Spy.calls
          (after
             (DraftGenerationWorkflow.run (Spy.workflow (Fakes.workflowWith None))
                Fakes.sneakerRequest (Spy.mk Fakes.start [])))) /\
     ScheduleInput.prompt si = trim (lit "young person walking")) /\
  (exists si,
     In (CallSchedule si)
       (Spy.calls
          (after
             (DraftGenerationWorkflow.run (Spy.workflow (Fakes.workflowWith None))
                Fakes.springRequest (Spy.mk Fakes.start [])))) /\
     ScheduleInput.prompt si = trim (lit "spring sneaker")).
Proof.
  split.
  - exists {| ScheduleInput.draftId := lit "draft-123";
              ScheduleInput.prompt := lit "young person walking" |}.
    assert (In (CallSchedule
                  {| ScheduleInput.draftId := lit "draft-123";
                     ScheduleInput.prompt := lit "young person walking" |})
              (Spy.calls
                 (after
                    (DraftGenerationWorkflow.run
                       (Spy.workflow (Fakes.workflowWith None))
                       Fakes.sneakerRequest (Spy.mk Fakes.start [])))))
      as Hin by (vm_compute; tauto).
    split; [exact Hin|].
    apply (proj2 (run_prompt (Fakes.workflowWith None) Fakes.sneakerRequest
                    Fakes.start [] _ _ eq_refl Hin)
             (lit "young person walking")).
    + reflexivity.
    + vm_compute. discriminate.
  - exists {| ScheduleInput.draftId := lit "draft-123";
              ScheduleInput.prompt := lit "spring sneaker" |}.
    assert (In (CallSchedule
                  {| ScheduleInput.draftId := lit "draft-123";
                     ScheduleInput.prompt := lit "spring sneaker" |})
              (Spy.calls
                 (after
                    (DraftGenerationWorkflow.run
                       (Spy.workflow (Fakes.workflowWith None))
                       Fakes.springRequest (Spy.mk Fakes.start [])))))
      as Hin by (vm_compute; tauto).
    split; [exact Hin|].
    apply (proj1 (run_prompt (Fakes.workflowWith None) Fakes.springRequest
                    Fakes.start [] _ _ eq_refl Hin)).
    + right. exists (lit "   "). split; reflexivity.
    + reflexivity.
Defined.

(** C2, as stated, fails: the request has a padded theme and no image
    prompt, the run succeeds, and the prompt it schedules is the padded
    theme, not the trimmed one. *)
Lemma run_prompt_counterexample :
  DraftGenerationRequest.imagePrompt Fakes.paddedRequest = None /\
  exists result st si,
    DraftGenerationWorkflow.run (Spy.workflow (Fakes.workflowWith None))
      Fakes.paddedRequest (Spy.mk Fakes.start []) = (Returned result, st) /\
    In (CallSchedule si) (Spy.calls st) /\
    ScheduleInput.prompt si = lit " spring sneaker " /\
    trim (DraftGenerationRequest.theme Fakes.paddedRequest) =
      lit "spring sneaker" /\
    ScheduleInput.prompt si <>
      trim (DraftGenerationRequest.theme Fakes.paddedRequest).
Proof.
  split; [reflexivity|].
  eexists _, _, {| ScheduleInput.draftId := lit "draft-123";
                   ScheduleInput.prompt := lit " spring sneaker " |}.
  split; [vm_compute; reflexivity|].
  split; [vm_compute; tauto|].
  split; [reflexivity|].
  split; [reflexivity|].
  vm_compute. discriminate.
Qed.

(** ** A failing scheduler *)

(** C3.  In a [run] whose generator returned and whose use case returned
    the summary [result], a [schedule] call that throws [e] makes the run
    throw that same [e], on spied ports and on the bare ones alike.  By
    then [save] has been called with the identified draft and has
    returned; the scheduler started from the world that [save] left, and
    the world it leaves in turn is the world of the failed run: nothing is
    undone. *)
Theorem run_schedule_failure {World : Type}
  (wf : DraftGenerationWorkflow.t World) (input : DraftGenerationRequest.t)
  (w : World) (l : list Call) (g : GeneratedContent.t) (w1 : World)
  (result : DraftSummary.t) (st : Spy.Log World) (e : Thrown) (w3 : World) :
  let gi := DraftGenerationWorkflow.generationInput input in
  let si :=
    {| ScheduleInput.draftId := DraftSummary.id result;
       ScheduleInput.prompt := DraftGenerationWorkflow.imagePromptOf input |} in
  ContentGenerator.generate (DraftGenerationWorkflow.contentGenerator wf) gi w =
    (Returned g, w1) ->
  CreateDraftUseCase.execute
    (Spy.useCase (DraftGenerationWorkflow.createDraft wf))
    (DraftGenerationWorkflow.draftInput input g)
    (Spy.mk w1 (l ++ [CallGenerate gi])) = (Returned result, st) ->
  ImageScheduler.schedule (DraftGenerationWorkflow.imageScheduler wf) si
    (Spy.world st) = (Threw e, w3) ->
  DraftGenerationWorkflow.run (Spy.workflow wf) input (Spy.mk w l) =
    (Threw e, Spy.mk w3 (Spy.calls st ++ [CallSchedule si])) /\
  DraftGenerationWorkflow.run wf input w = (Threw e, w3) /\
  exists d w2,
    Spy.calls st = l ++ [CallGenerate gi; CallNow; CallNext; CallSave d] /\
    PostDraft.id d = Some (DraftSummary.id result) /\
    DraftRepository.save
      (CreateDraftUseCase.repository (DraftGenerationWorkflow.createDraft wf))
      d w2 = (Returned tt, Spy.world st).
Proof.
  intros gi si Hg Hx Hs.
  assert (DraftGenerationWorkflow.run (Spy.workflow wf) input (Spy.mk w l) =
          (Threw e, Spy.mk w3 (Spy.calls st ++ [CallSchedule si]))) as Hrun.
  { rewrite run_spied_unfold. cbv zeta. fold gi. rewrite Hg, Hx. fold si.
    rewrite Hs. reflexivity. }
  split; [exact Hrun|]. split.
  - destruct (spy_run wf input w l) as [Ho Hw]. rewrite Hrun in Ho, Hw.
    simpl in Ho, Hw.
    destruct (DraftGenerationWorkflow.run wf input w) as [o w'].
    simpl in Ho, Hw. now subst.
  - destruct (execute_returned _ _ _ _ _ _ Hx)
      as (created & w1' & id & w2 & w3' & _ & _ & Hsave & Hst & _ & Hsid).
    exists (PostDraft.assignId created id), w2. subst st. simpl.
    rewrite <- app_assoc. split; [reflexivity|].
    split; [now rewrite Hsid|exact Hsave].
Qed.

(** The sneaker request on a queue whose [send] rejects: the run fails
    with the queue's error while the draft sits in the store. *)
Lemma run_schedule_failure_witness :
  exists st,
    DraftGenerationWorkflow.run
      (Spy.workflow (Fakes.workflowWith (Some Fakes.brokenQueue)))
      Fakes.sneakerRequest (Spy.mk Fakes.start []) =
      (Threw (Error (lit "Queue send failed")), st) /\
    List.length (Fakes.stored (Spy.world st)) = 1.
Proof.
  eexists. split.
  - refine (proj1 (run_schedule_failure
                     (Fakes.workflowWith (Some Fakes.brokenQueue))
                     Fakes.sneakerRequest Fakes.start [] Fakes.generated
                     Fakes.start _ _ _ _ eq_refl eq_refl eq_refl)).
  - reflexivity.
Defined.

(** ** The queue-backed scheduler *)

(** C7, as the code has it.  Without a queue [schedule] does not throw: it
    returns the job identifier, the draft id followed by [-image], and
    leaves the state alone.  With a queue it sends the [generate_image]
    message; when [send] completes it returns the same identifier, and
    when [send] fails that failure is the outcome of [schedule]. *)
Theorem schedule_job_id {S : Type} (this : QueueImageScheduler.t S)
  (input : ScheduleInput.t) (s : S) :
  let job :=
    {| ScheduleResult.imageJobId :=
         ScheduleInput.draftId input ++ lit "-image" |} in
  (QueueImageScheduler.queue this = None ->
   QueueImageScheduler.schedule this input s = (Returned job, s))
  /\
  (forall q s',
     QueueImageScheduler.queue this = Some q ->
     Queue.send q (QueueImageScheduler.message input) s = (Returned tt, s') ->
     QueueImageScheduler.schedule this input s = (Returned job, s'))
  /\
  (forall q e s',
     QueueImageScheduler.queue this = Some q ->
     Queue.send q (QueueImageScheduler.message input) s = (Threw e, s') ->
     QueueImageScheduler.schedule this input s = (Threw e, s')).
Proof.
  intros job. unfold QueueImageScheduler.schedule, bind.
  split; [|split].
  - intros ->. reflexivity.
  - intros q s' -> ->. reflexivity.
  - intros q e s' -> ->. reflexivity.
Qed.

(** The sneaker job without a queue and with a working one. *)
Lemma schedule_job_id_witness :
  QueueImageScheduler.schedule (QueueImageScheduler.mk None) Fakes.sneakerJob
    Fakes.start =
    (Returned {| ScheduleResult.imageJobId := lit "draft-123-image" |},
     Fakes.start) /\
  (exists s',
     QueueImageScheduler.schedule (QueueImageScheduler.mk (Some Fakes.queue))
       Fakes.sneakerJob Fakes.start =
       (Returned {| ScheduleResult.imageJobId := lit "draft-123-image" |}, s') /\
     Fakes.queued s' = [QueueImageScheduler.message Fakes.sneakerJob]) /\
  QueueImageScheduler.schedule (QueueImageScheduler.mk (Some Fakes.brokenQueue))
    Fakes.sneakerJob Fakes.start =
    (Threw (Error (lit "Queue send failed")), Fakes.start).
Proof.
  split; [|split].
  - apply (proj1 (schedule_job_id (QueueImageScheduler.mk None)
                    Fakes.sneakerJob Fakes.start)).
    reflexivity.
  - eexists. split.
    + apply (proj1 (proj2 (schedule_job_id
                             (QueueImageScheduler.mk (Some Fakes.queue))
                             Fakes.sneakerJob Fakes.start))
               Fakes.queue).
      * reflexivity.
      * reflexivity.
    + reflexivity.
  - apply (proj2 (proj2 (schedule_job_id
                           (QueueImageScheduler.mk (Some Fakes.brokenQueue))
                           Fakes.sneakerJob Fakes.start))
             Fakes.brokenQueue).
    + reflexivity.
    + reflexivity.
Defined.

(** C7, as stated, fails: with a queue whose [send] rejects, [schedule]
    throws and returns no job identifier. *)
Lemma schedule_job_id_counterexample :
  QueueImageScheduler.schedule (QueueImageScheduler.mk (Some Fakes.brokenQueue))
    Fakes.sneakerJob Fakes.start =
    (Threw (Error (lit "Queue send failed")), Fakes.start) /\
  ~ (exists job s',
       QueueImageScheduler.schedule
         (QueueImageScheduler.mk (Some Fakes.brokenQueue))
         Fakes.sneakerJob Fakes.start = (Returned job, s')).
Proof.
  split; [reflexivity|].
  intros (job & s' & H). vm_compute in H. discriminate.
Qed.

(** ** The rule-based generator *)

Lemma StringSet_add_NoDup (x : jsstring) (s : list jsstring) :
  NoDup s -> NoDup (StringSet.add x s).
Proof.
  intros Hs. unfold StringSet.add. destruct (decide (x ∈ s)) as [|Hx];
    [exact Hs|].
  apply NoDup_app. split; [exact Hs|]. split.
  - intros y Hy Hy'. apply list_elem_of_singleton in Hy'. now subst.
  - apply NoDup_singleton.
Qed.

Lemma StringSet_add_length (x : jsstring) (s : list jsstring) :
  List.length (StringSet.add x s) <= S (List.length s).
Proof.
  unfold StringSet.add. destruct (decide (x ∈ s)); [lia|].
  rewrite length_app. simpl. lia.
Qed.

Lemma StringSet_add_elem (x : jsstring) (s : list jsstring) :
  x ∈ StringSet.add x s.
Proof.
  unfold StringSet.add. destruct (decide (x ∈ s)); [assumption|].
  apply elem_of_app. right. apply list_elem_of_singleton. reflexivity.
Qed.

Lemma filter_length_le' {A : Type} (f : A -> bool) (l : list A) :
  List.length (List.filter f l) <= List.length l.
Proof.
  induction l as [|x l IH]; simpl; [lia|]. destruct (f x); simpl; lia.
Qed.

Section SimpleGenerator.

Variable toLowerCase : jsstring -> jsstring.

Lemma buildHashtags_spec (input : ContentGenerationInput.t) :
  let tags := SimpleContentGenerator.buildHashtags toLowerCase input in
  NoDup tags /\ List.length tags <= 3 /\ lit "instagram" ∈ tags.
Proof.
  unfold SimpleContentGenerator.buildHashtags. cbv zeta.
  set (t1 := StringSet.add _ StringSet.empty).
  assert (NoDup t1 /\ List.length t1 <= 1) as [N1 L1].
  { split; [apply StringSet_add_NoDup, NoDup_nil_2|].
    apply (StringSet_add_length _ StringSet.empty). }
  set (t2 := match ContentGenerationInput.product input with
             | Some p => _ | None => _ end).
  assert (NoDup t2 /\ List.length t2 <= 2) as [N2 L2].
  { subst t2. destruct (ContentGenerationInput.product input) as [p|];
      [destruct (truthy p)|]; try (split; [assumption|lia]).
    split; [now apply StringSet_add_NoDup|].
    pose proof (StringSet_add_length (toLowerCase (removeWhiteSpace p)) t1).
    lia. }
  split; [now apply StringSet_add_NoDup|]. split.
  - pose proof (StringSet_add_length (lit "instagram") t2). lia.
  - apply StringSet_add_elem.
Qed.

(** C10.  [generate] of the rule-based generator returns, in every state
    and without changing it, one and the same content for a given input.
    Its hashtags have no duplicates, are at most 3 and contain
    [instagram].  The factory, given these hashtags the way the workflow
    passes them on with any request, never fails over the hashtag limit:
    it fails over the theme, or over the brand voice, or goes on to read
    the clock and construct the draft. *)
Theorem generate_hashtags (input : ContentGenerationInput.t) :
  exists content,
    (forall (S : Type) (s : S),
       SimpleContentGenerator.generate toLowerCase input s =
         (Returned content, s)) /\
    NoDup (GeneratedContent.hashtags content) /\
    List.length (GeneratedContent.hashtags content) <= 3 /\
    lit "instagram" ∈ GeneratedContent.hashtags content /\
    PostDraft.overLimit
      (PostDraft.normalizeHashtags (Some (GeneratedContent.hashtags content))) =
      false /\
    (forall (request : DraftGenerationRequest.t) (S : Type)
       (clock : DraftClock.t S) (s : S),
       let i :=
         CreateDraftInput.widen
           (DraftGenerationWorkflow.draftInput request content) in
       refusedBy PostDraft.themeMessage (PostDraft.create i clock s) s \/
       refusedBy PostDraft.brandVoiceMessage (PostDraft.create i clock s) s \/
       PostDraft.create i clock s =
         (now <- DraftClock.now clock ;;
          ret (PostDraft.construct i (trim (DraftInput.theme i))
                 (trim (DraftInput.brandVoice i))
                 (PostDraft.normalizeHashtags (DraftInput.hashtags i)) now))
           s).
Proof.
  destruct (buildHashtags_spec input) as (Hnd & Hlen & Hin).
  eexists. split; [intros S s; reflexivity|]. simpl.
  split; [exact Hnd|]. split; [exact Hlen|]. split; [exact Hin|].
  assert (Nat.ltb 25
            (List.length
               (List.filter truthy
                  (List.map trim
                     (SimpleContentGenerator.buildHashtags toLowerCase input)))) =
          false) as Hok.
  { apply Nat.ltb_ge.
    pose proof (filter_length_le' truthy
                  (List.map trim
                     (SimpleContentGenerator.buildHashtags toLowerCase input))).
    rewrite length_map in *. lia. }
  split; [exact Hok|].
  intros request S clock s. unfold refusedBy. rewrite create_unfold.
  destruct (negb (truthy (trim _))); [now left|].
  destruct (negb (truthy (trim _))); [now right; left|].
  right; right. simpl. rewrite Hok. reflexivity.
Qed.

End SimpleGenerator.

(** The generator on the sneaker request, with ASCII lower-casing. *)
Example generate_sneaker :
  SimpleContentGenerator.buildHashtags Fakes.asciiLower
    (DraftGenerationWorkflow.generationInput Fakes.sneakerRequest) =
  [lit "newsneaker"; lit "airflex"; lit "instagram"].
Proof. reflexivity. Qed.

(** A product that is the standard tag already: the set keeps one copy. *)
Example generate_duplicate :
  SimpleContentGenerator.buildHashtags Fakes.asciiLower
    {| ContentGenerationInput.theme := lit "Insta Gram";
       ContentGenerationInput.brandVoice := lit "kind";
       ContentGenerationInput.product := Some (lit "INSTAGRAM");
       ContentGenerationInput.targetPersona := None |} =
  [lit "instagram"].
Proof. reflexivity. Qed.

(** ** Requests that come through the HTTP adapter *)

Lemma ensureString_ok (value : App.unknown) (field v : jsstring) :
  App.ensureString value field = App.Ok v -> trimmed v /\ v <> [].
Proof.
  destruct value as [x|]; simpl; [|discriminate].
  destruct (trim x) as [|c r] eqn:E; simpl; [discriminate|].
  intros H. injection H as <-. split; [|discriminate].
  rewrite <- E. apply trimmed_trim.
Qed.

Lemma asOptionalString_some (value : App.unknown) (v : jsstring) :
  App.asOptionalString value = Some v -> trimmed v /\ v <> [].
Proof.
  destruct value as [x|]; simpl; [|discriminate].
  destruct (trim x) as [|c r] eqn:E; simpl; [discriminate|].
  intros H. injection H as <-. split; [|discriminate].
  rewrite <- E. apply trimmed_trim.
Qed.

(** A validated request has a trimmed, non-empty theme, and its image
    prompt is absent or trimmed and non-empty: for it the prompt of the
    image job is the trimmed image prompt, or else the trimmed theme. *)
Lemma validated_request_prompt (raw : option App.Payload)
  (request : DraftGenerationRequest.t) :
  App.validateDraftGenerationInput raw = App.Ok request ->
  trimmed (DraftGenerationRequest.theme request) /\
  DraftGenerationWorkflow.imagePromptOf request =
    match DraftGenerationRequest.imagePrompt request with
    | Some p => trim p
    | None => trim (DraftGenerationRequest.theme request)
    end.
Proof.
  destruct raw as [payload|]; simpl; [|discriminate].
  destruct (App.ensureString (App.theme payload) _) as [t|e] eqn:Et;
    [|discriminate].
  destruct (App.ensureString (App.brandVoice payload) _) as [v|e] eqn:Ev;
    [|discriminate].
  intros H. injection H as <-. simpl.
  destruct (ensureString_ok _ _ _ Et) as [Ht _].
  split; [exact Ht|].
  unfold DraftGenerationWorkflow.imagePromptOf. simpl.
  destruct (App.asOptionalString (App.imagePrompt payload)) as [p|] eqn:Ep;
    simpl.
  - destruct (asOptionalString_some _ _ Ep) as [Hp Hne].
    rewrite Hp. apply truthy_true in Hne. now rewrite Hne.
  - symmetry. exact Ht.
Qed.

(** ** The scenarios of the specification, run on the test doubles *)

(** The sneaker request: the summary, the order of the steps, the stored
    draft and the queued message. *)
Example scenario_sneaker :
  let r :=
    DraftGenerationWorkflow.run
      (Spy.workflow (Fakes.workflowWith (Some Fakes.queue)))
      Fakes.sneakerRequest (Spy.mk Fakes.start []) in
  outcome r =
    Returned
      {| DraftSummary.id := lit "draft-123";
         DraftSummary.status := draft;
         DraftSummary.caption := lit "C";
         DraftSummary.hashtags := [lit "a"; lit "b"];
         DraftSummary.altText := lit "Alt";
         DraftSummary.createdAt := lit "2025-01-01T00:00:00.000Z" |} /\
  Spy.steps (Spy.calls (after r)) = [Spy.Generate; Spy.Save; Spy.Schedule] /\
  List.map PostDraft.id (Fakes.stored (Spy.world (after r))) =
    [Some (lit "draft-123")] /\
  Fakes.queued (Spy.world (after r)) =
    [QueueImageScheduler.message Fakes.sneakerJob].
Proof. vm_compute. repeat split. Qed.

(** An empty theme: the factory's error, and no call after [generate]. *)
Example scenario_empty_theme :
  DraftGenerationWorkflow.run (Spy.workflow (Fakes.workflowWith None))
    Fakes.emptyThemeRequest (Spy.mk Fakes.start []) =
  (Threw (Error (lit "theme must be a non-empty string")),
   Spy.mk Fakes.start
     [CallGenerate
        (DraftGenerationWorkflow.generationInput Fakes.emptyThemeRequest)]).
Proof. reflexivity. Qed.

(** A blank image prompt: the theme is the prompt. *)
Example scenario_blank_prompt :
  last
    (Spy.calls
       (after
          (DraftGenerationWorkflow.run (Spy.workflow (Fakes.workflowWith None))
             Fakes.springRequest (Spy.mk Fakes.start [])))) =
  Some
    (CallSchedule
       {| ScheduleInput.draftId := lit "draft-123";
          ScheduleInput.prompt := lit "spring sneaker" |}).
Proof. reflexivity. Qed.

(** White space as [trim] sees it. *)
Example trim_examples :
  trim (lit "  a b  ") = lit "a b" /\
  trim [12288; 97; 160; 10]%N = [97]%N /\
  trim [8203; 97]%N = [8203; 97]%N /\
  removeWhiteSpace (lit " new  sneaker ") = lit "newsneaker".
Proof. repeat split. Qed.

(** * Further properties of the worker and the form *)

(** ** The validation of the HTTP adapter *)

Lemma length_pos_truthy (s : jsstring) : Nat.ltb 0 (List.length s) = truthy s.
Proof. destruct s; reflexivity. Qed.

Lemma length_zero_truthy (s : jsstring) :
  Nat.eqb (List.length s) 0 = negb (truthy s).
Proof. destruct s; reflexivity. Qed.

Lemma ensureString_some (field v : jsstring) :
  trim v <> [] -> App.ensureString (App.Str v) field = App.Ok (trim v).
Proof.
  intros H. simpl. rewrite length_zero_truthy.
  apply truthy_true in H. now rewrite H.
Qed.

Lemma ensureString_blank (value : App.unknown) (field : jsstring) :
  (forall v, value = App.Str v -> trim v = []) ->
  App.ensureString value field =
    App.Fail (field ++ lit " must be a non-empty string").
Proof.
  intros H. destruct value as [v|]; [|reflexivity].
  simpl. now rewrite (H v eq_refl).
Qed.

Lemma ensureString_inv (value : App.unknown) (field x : jsstring) :
  App.ensureString value field = App.Ok x ->
  exists v, value = App.Str v /\ trim v <> [] /\ x = trim v.
Proof.
  destruct value as [v|]; simpl; [|discriminate].
  rewrite length_zero_truthy.
  destruct (truthy (trim v)) eqn:E; simpl; [|discriminate].
  intros H. injection H as <-. exists v.
  apply truthy_true in E. auto.
Qed.

Lemma asOptionalString_trimmed (v : jsstring) :
  trimmed v -> v <> [] -> App.asOptionalString (App.Str v) = Some v.
Proof.
  intros Ht Hne. simpl. rewrite Ht, length_pos_truthy.
  apply truthy_true in Hne. now rewrite Hne.
Qed.

(** X1.  [validateDraftGenerationInput] accepts exactly the objects whose
    [theme] and [brandVoice] are strings that are not blank, and answers
    with both trimmed and with the three optional fields read by
    [asOptionalString]; what is not an object is refused as such, and an
    object is refused over its theme before its brand voice, with the very
    messages the aggregate uses. *)
Theorem validate_accepts_exactly (raw : option App.Payload) :
  (raw = None ->
   App.validateDraftGenerationInput raw =
     App.Fail (lit "Payload must be an object")) /\
  (forall request,
     App.validateDraftGenerationInput raw = App.Ok request <->
     exists payload t v,
       raw = Some payload /\
       App.theme payload = App.Str t /\ trim t <> [] /\
       App.brandVoice payload = App.Str v /\ trim v <> [] /\
       request =
         {| DraftGenerationRequest.theme := trim t;
            DraftGenerationRequest.brandVoice := trim v;
            DraftGenerationRequest.product :=
              App.asOptionalString (App.product payload);
            DraftGenerationRequest.imagePrompt :=
              App.asOptionalString (App.imagePrompt payload);
            DraftGenerationRequest.targetPersona :=
              App.asOptionalString (App.targetPersona payload) |}) /\
  (forall payload,
     raw = Some payload ->
     (forall t, App.theme payload = App.Str t -> trim t = []) ->
     App.validateDraftGenerationInput raw = App.Fail PostDraft.themeMessage) /\
  (forall payload t,
     raw = Some payload ->
     App.theme payload = App.Str t -> trim t <> [] ->
     (forall v, App.brandVoice payload = App.Str v -> trim v = []) ->
     App.validateDraftGenerationInput raw =
       App.Fail PostDraft.brandVoiceMessage).
Proof.
  split; [intros ->; reflexivity|]. split; [|split].
  - intros request. split.
    + destruct raw as [payload|]; simpl; [|discriminate].
      destruct (App.ensureString (App.theme payload) _) as [x|e] eqn:Et;
        [|discriminate].
      destruct (App.ensureString (App.brandVoice payload) _) as [y|e] eqn:Ev;
        [|discriminate].
      intros H. injection H as <-.
      destruct (ensureString_inv _ _ _ Et) as (t & Ht & Hne & ->).
      destruct (ensureString_inv _ _ _ Ev) as (v & Hv & Hnv & ->).
      exists payload, t, v. auto 10.
    + intros (payload & t & v & -> & Ht & Hne & Hv & Hnv & ->).
      unfold App.validateDraftGenerationInput.
      rewrite Ht, Hv, (ensureString_some _ t Hne), (ensureString_some _ v Hnv).
      reflexivity.
  - intros payload -> H. unfold App.validateDraftGenerationInput.
    rewrite (ensureString_blank _ _ H). reflexivity.
  - intros payload t -> Ht Hne H. unfold App.validateDraftGenerationInput.
    rewrite Ht, (ensureString_some _ t Hne), (ensureString_blank _ _ H).
    reflexivity.
Qed.

(** A payload that is accepted, and the three ways to be refused. *)
Lemma validate_accepts_exactly_witness :
  App.validateDraftGenerationInput None =
    App.Fail (lit "Payload must be an object") /\
  App.validateDraftGenerationInput (Some Memory.goodPayload) =
    App.Ok Memory.goodRequest /\
  App.validateDraftGenerationInput (Some Memory.noThemePayload) =
    App.Fail PostDraft.themeMessage /\
  App.validateDraftGenerationInput (Some Memory.blankVoicePayload) =
    App.Fail PostDraft.brandVoiceMessage.
Proof.
  split; [|split; [|split]].
  - apply (proj1 (validate_accepts_exactly None)). reflexivity.
  - apply (proj1 (proj2 (validate_accepts_exactly (Some Memory.goodPayload)))).
    exists Memory.goodPayload, (lit " Spring Sneaker "), (lit "kind").
    split; [reflexivity|]. split; [reflexivity|].
    split; [vm_compute; discriminate|]. split; [reflexivity|].
    split; [vm_compute; discriminate|]. reflexivity.
  - apply (proj1 (proj2 (proj2 (validate_accepts_exactly
                                  (Some Memory.noThemePayload))))
             Memory.noThemePayload eq_refl).
    intros t H. discriminate H.
  - apply (proj2 (proj2 (proj2 (validate_accepts_exactly
                                  (Some Memory.blankVoicePayload))))
             Memory.blankVoicePayload (lit "Spring Sneaker") eq_refl eq_refl).
    + vm_compute. discriminate.
    + intros v H. injection H as <-. reflexivity.
Defined.

Lemma optional_wire (o : option jsstring) :
  match o with Some v => trimmed v /\ v <> [] | None => True end ->
  App.asOptionalString (Wire.property o) = o.
Proof.
  destruct o as [v|]; simpl; [|reflexivity].
  intros [Ht Hne]. rewrite Ht, length_pos_truthy.
  apply truthy_true in Hne. now rewrite Hne.
Qed.

Lemma asOptionalString_normal (value : App.unknown) :
  match App.asOptionalString value with
  | Some v => trimmed v /\ v <> []
  | None => True
  end.
Proof.
  destruct (App.asOptionalString value) as [v|] eqn:E; [|exact I].
  exact (asOptionalString_some _ _ E).
Qed.

(** A request in the form the adapter hands on: theme and brand voice
    trimmed and not empty, each optional field absent or trimmed and not
    empty. *)
Lemma wire_accepted (request : DraftGenerationRequest.t) :
  trimmed (DraftGenerationRequest.theme request) ->
  DraftGenerationRequest.theme request <> [] ->
  trimmed (DraftGenerationRequest.brandVoice request) ->
  DraftGenerationRequest.brandVoice request <> [] ->
  match DraftGenerationRequest.product request with
  | Some v => trimmed v /\ v <> [] | None => True end ->
  match DraftGenerationRequest.imagePrompt request with
  | Some v => trimmed v /\ v <> [] | None => True end ->
  match DraftGenerationRequest.targetPersona request with
  | Some v => trimmed v /\ v <> [] | None => True end ->
  App.validateDraftGenerationInput (Some (Wire.payload request)) =
    App.Ok request.
Proof.
  intros Ht Hte Hv Hve Hp Hi Hg.
  unfold App.validateDraftGenerationInput, Wire.payload.
  cbn [App.theme App.brandVoice App.product App.imagePrompt App.targetPersona].
  assert (trim (DraftGenerationRequest.theme request) <> []) as Hte'
    by (rewrite Ht; exact Hte).
  assert (trim (DraftGenerationRequest.brandVoice request) <> []) as Hve'
    by (rewrite Hv; exact Hve).
  rewrite (ensureString_some _ _ Hte'), (ensureString_some _ _ Hve'),
    (optional_wire _ Hp), (optional_wire _ Hi), (optional_wire _ Hg), Ht, Hv.
  destruct request. reflexivity.
Qed.

Lemma validate_normal_form_aux (raw : option App.Payload)
  (request : DraftGenerationRequest.t) :
  App.validateDraftGenerationInput raw = App.Ok request ->
  forall v, DraftGenerationRequest.imagePrompt request = Some v ->
            trimmed v /\ v <> [].
Proof.
  intros H.
  destruct raw as [payload|]; simpl in H; [|discriminate].
  destruct (App.ensureString (App.theme payload) _) as [x|e]; [|discriminate].
  destruct (App.ensureString (App.brandVoice payload) _) as [y|e];
    [|discriminate].
  injection H as <-. intros v Hs. exact (asOptionalString_some _ _ Hs).
Qed.

(** X2.  A request that passed the validation is in normal form: theme
    and brand voice are trimmed and not empty, the optional fields are
    absent or trimmed and not empty.  Sent to the worker again it passes
    unchanged. *)
Theorem validate_normal_form (raw : option App.Payload)
  (request : DraftGenerationRequest.t) :
  App.validateDraftGenerationInput raw = App.Ok request ->
  trimmed (DraftGenerationRequest.theme request) /\
  DraftGenerationRequest.theme request <> [] /\
  trimmed (DraftGenerationRequest.brandVoice request) /\
  DraftGenerationRequest.brandVoice request <> [] /\
  (forall v, DraftGenerationRequest.product request = Some v ->
             trimmed v /\ v <> []) /\
  (forall v, DraftGenerationRequest.imagePrompt request = Some v ->
             trimmed v /\ v <> []) /\
  (forall v, DraftGenerationRequest.targetPersona request = Some v ->
             trimmed v /\ v <> []) /\
  App.validateDraftGenerationInput (Some (Wire.payload request)) =
    App.Ok request.
Proof.
  intros H.
  destruct raw as [payload|]; simpl in H; [|discriminate].
  destruct (App.ensureString (App.theme payload) _) as [x|e] eqn:Et;
    [|discriminate].
  destruct (App.ensureString (App.brandVoice payload) _) as [y|e] eqn:Ev;
    [|discriminate].
  injection H as <-.
  destruct (ensureString_ok _ _ _ Et) as [Ht Hte].
  destruct (ensureString_ok _ _ _ Ev) as [Hv Hve].
  cbn [DraftGenerationRequest.theme DraftGenerationRequest.brandVoice
       DraftGenerationRequest.product DraftGenerationRequest.imagePrompt
       DraftGenerationRequest.targetPersona].
  split; [exact Ht|]. split; [exact Hte|]. split; [exact Hv|].
  split; [exact Hve|].
  split; [intros v Hs; exact (asOptionalString_some _ _ Hs)|].
  split; [intros v Hs; exact (asOptionalString_some _ _ Hs)|].
  split; [intros v Hs; exact (asOptionalString_some _ _ Hs)|].
  apply wire_accepted; try assumption; apply asOptionalString_normal.
Qed.

Lemma validate_normal_form_witness :
  trimmed (DraftGenerationRequest.theme Memory.goodRequest) /\
  App.validateDraftGenerationInput (Some (Wire.payload Memory.goodRequest)) =
    App.Ok Memory.goodRequest.
Proof.
  destruct (validate_normal_form (Some Memory.goodPayload) Memory.goodRequest
              eq_refl) as (Ht & _ & _ & _ & _ & _ & _ & Hw).
  split; [exact Ht|exact Hw].
Defined.

Lemma form_optional_normal (value : jsstring) :
  match UseDraftGeneration.optional value with
  | Some v => trimmed v /\ v <> []
  | None => True
  end.
Proof.
  unfold UseDraftGeneration.optional. cbv zeta. rewrite length_pos_truthy.
  destruct (truthy (trim value)) eqn:E; [|exact I].
  split; [apply trimmed_trim|now apply truthy_true].
Qed.

(** X3.  What the form submits, the worker accepts as it is.  When
    [handleSubmit] passes a payload on, which it does exactly when the form
    may be submitted and is not being submitted, that payload is the one
    [toRequestPayload] builds from the same values, and the worker's
    validation of it, sent as JSON, returns that very request.  When the
    theme or the brand voice typed in is blank, the payload built from the
    values is refused by the worker. *)
Theorem form_payload_accepted (values : GenerationFormValues.t)
  (isSubmitting : bool) :
  let submitted :=
    GenerationForm.handleSubmit values (UseDraftGeneration.canSubmit values)
      isSubmitting in
  (submitted <> None <->
   UseDraftGeneration.canSubmit values = true /\ isSubmitting = false) /\
  (forall payload,
     submitted = Some payload ->
     payload = UseDraftGeneration.toRequestPayload values /\
     App.validateDraftGenerationInput (Some (Wire.payload payload)) =
       App.Ok payload) /\
  (UseDraftGeneration.canSubmit values = false ->
   exists message,
     App.validateDraftGenerationInput
       (Some (Wire.payload (UseDraftGeneration.toRequestPayload values))) =
       App.Fail message).
Proof.
  cbv zeta. unfold GenerationForm.handleSubmit.
  unfold UseDraftGeneration.canSubmit. rewrite !length_pos_truthy.
  split; [|split].
  - destruct (truthy (trim (GenerationFormValues.theme values)));
      destruct (truthy (trim (GenerationFormValues.brandVoice values)));
      destruct isSubmitting; simpl; split; intros H;
      try discriminate; try tauto; try (destruct H; discriminate).
  - intros payload.
    destruct (truthy (trim (GenerationFormValues.theme values))) eqn:Et;
      [|discriminate].
    destruct (truthy (trim (GenerationFormValues.brandVoice values))) eqn:Ev;
      [|discriminate].
    destruct isSubmitting; [discriminate|]. simpl.
    intros H. injection H as <-. split; [reflexivity|].
    apply truthy_true in Et, Ev.
    apply wire_accepted; simpl; try apply trimmed_trim; try assumption;
      apply form_optional_normal.
  - intros H. unfold App.validateDraftGenerationInput. simpl.
    rewrite !length_zero_truthy.
    destruct (truthy (trim (GenerationFormValues.theme values))) eqn:Et.
    + simpl in H. rewrite trim_idem, Et. simpl.
      rewrite trim_idem, H. simpl. eexists. reflexivity.
    + rewrite trim_idem, Et. simpl. eexists. reflexivity.
Qed.

Lemma form_payload_accepted_witness :
  (exists payload,
     GenerationForm.handleSubmit Memory.typed
       (UseDraftGeneration.canSubmit Memory.typed) false = Some payload /\
     App.validateDraftGenerationInput (Some (Wire.payload payload)) =
       App.Ok payload) /\
  (exists message,
     App.validateDraftGenerationInput
       (Some (Wire.payload
                (UseDraftGeneration.toRequestPayload
                   GenerationFormValues.initialFormValues))) =
       App.Fail message).
Proof.
  split.
  - eexists. split; [reflexivity|].
    apply (proj1 (proj2 (form_payload_accepted Memory.typed false)) _ eq_refl).
  - apply (proj2 (proj2 (form_payload_accepted
                           GenerationFormValues.initialFormValues false))).
    reflexivity.
Defined.

(** X4.  For a request that passed the validation of the adapter, the
    prompt of the image job is the image prompt itself when there is one,
    and the theme, which is then its own trimmed form, when there is none:
    after the adapter the fallback of the workflow is the trimmed theme. *)
Theorem adapter_prompt_fallback (raw : option App.Payload)
  (request : DraftGenerationRequest.t) :
  App.validateDraftGenerationInput raw = App.Ok request ->
  (DraftGenerationRequest.imagePrompt request = None ->
   DraftGenerationWorkflow.imagePromptOf request =
     trim (DraftGenerationRequest.theme request) /\
   DraftGenerationWorkflow.imagePromptOf request =
     DraftGenerationRequest.theme request) /\
  (forall p,
     DraftGenerationRequest.imagePrompt request = Some p ->
     DraftGenerationWorkflow.imagePromptOf request = p /\
     trim p = p /\ p <> []).
Proof.
  intros H.
  destruct (validated_request_prompt raw request H) as [Ht Hp].
  pose proof (validate_normal_form_aux raw request H) as Hi.
  split.
  - intros Hn. rewrite Hn in Hp. split; [exact Hp|]. now rewrite Hp.
  - intros p Hs. rewrite Hs in Hp. destruct (Hi p Hs) as [Htp Hne].
    split; [now rewrite Hp|]. split; assumption.
Qed.

Lemma adapter_prompt_fallback_witness :
  DraftGenerationWorkflow.imagePromptOf Memory.goodRequest =
    trim (lit "Spring Sneaker").
Proof.
  apply (proj1 (adapter_prompt_fallback (Some Memory.goodPayload)
                  Memory.goodRequest eq_refl)).
  reflexivity.
Defined.

(** ** The route *)

(** X5.  The answers of [POST /api/v1/generate].  A body that is not JSON
    and a payload the validation refuses are answered with 400 and the
    message, and the workflow is not run: the state is as before.  An
    accepted request is answered with 201, the id of the summary and the
    summary when the workflow returns, and with 400 when it throws, with
    the message of a thrown [Error] and with [Unknown error] for any other
    thrown value.  There is no other status, and 201 is given only for a
    run that returned. *)
Theorem route_response {S Env : Type}
  (factory : Env -> DraftGenerationWorkflow.t S) (env : Env)
  (c : Route.RequestJson) (s : S) :
  let r := Route.generate factory env c s in
  (c = Route.NotJson ->
   r = ({| Route.body := Route.ErrorBody (lit "Invalid JSON payload");
           Route.status := 400 |}, s)) /\
  (forall raw message,
     c = Route.Parsed raw ->
     App.validateDraftGenerationInput raw = App.Fail message ->
     r = ({| Route.body := Route.ErrorBody message; Route.status := 400 |}, s))
  /\
  (forall raw request result s',
     c = Route.Parsed raw ->
     App.validateDraftGenerationInput raw = App.Ok request ->
     DraftGenerationWorkflow.run (factory env) request s =
       (Returned result, s') ->
     r = ({| Route.body := Route.GeneratedBody (DraftSummary.id result) result;
             Route.status := 201 |}, s')) /\
  (forall raw request e s',
     c = Route.Parsed raw ->
     App.validateDraftGenerationInput raw = App.Ok request ->
     DraftGenerationWorkflow.run (factory env) request s = (Threw e, s') ->
     r = ({| Route.body :=
               Route.ErrorBody
                 match e with
                 | Error message => message
                 | Rejected _ => lit "Unknown error"
                 end;
             Route.status := 400 |}, s')) /\
  (Route.status (fst r) = 201%N \/ Route.status (fst r) = 400%N) /\
  (Route.status (fst r) = 201%N ->
   exists raw request result,
     c = Route.Parsed raw /\
     App.validateDraftGenerationInput raw = App.Ok request /\
     DraftGenerationWorkflow.run (factory env) request s =
       (Returned result, snd r)).
Proof.
  cbv zeta. unfold Route.generate, Route.readJson.
  split; [intros ->; reflexivity|].
  split; [intros raw message -> ->; reflexivity|].
  split; [intros raw request result s' -> -> ->; reflexivity|].
  split; [intros raw request e s' -> -> ->; destruct e; reflexivity|].
  destruct c as [|raw]; [split; [now right|discriminate]|].
  destruct (App.validateDraftGenerationInput raw) as [request|message] eqn:Ev;
    [|split; [now right|discriminate]].
  destruct (DraftGenerationWorkflow.run (factory env) request s)
    as [[result|e] s'] eqn:Er; simpl.
  - split; [now left|]. intros _. exists raw, request, result. auto.
  - split; [now right|discriminate].
Qed.

(** The route on the in-memory worker: no JSON, no theme, a good payload,
    and a good payload when the id generator rejects. *)
Lemma route_response_witness :
  Route.generate Memory.workflow None Route.NotJson (Memory.start []) =
    ({| Route.body := Route.ErrorBody (lit "Invalid JSON payload");
        Route.status := 400 |}, Memory.start []) /\
  Route.generate Memory.workflow None
    (Route.Parsed (Some Memory.noThemePayload)) (Memory.start []) =
    ({| Route.body := Route.ErrorBody PostDraft.themeMessage;
        Route.status := 400 |}, Memory.start []) /\
  (exists result s',
     Route.generate Memory.workflow None
       (Route.Parsed (Some Memory.goodPayload)) (Memory.start [Memory.uuid]) =
       ({| Route.body := Route.GeneratedBody (DraftSummary.id result) result;
           Route.status := 201 |}, s') /\
     DraftSummary.id result = Memory.uuid) /\
  (exists s',
     Route.generate Memory.workflow None
       (Route.Parsed (Some Memory.goodPayload)) (Memory.start []) =
       ({| Route.body := Route.ErrorBody (lit "Unknown error");
           Route.status := 400 |}, s')) /\
  (exists raw request result,
     Route.Parsed (Some Memory.goodPayload) = Route.Parsed raw /\
     App.validateDraftGenerationInput raw = App.Ok request /\
     DraftSummary.id result = Memory.uuid).
Proof.
  split; [|split; [|split; [|split]]].
  - apply (proj1 (route_response Memory.workflow None Route.NotJson
                    (Memory.start []))).
    reflexivity.
  - apply (proj1 (proj2 (route_response Memory.workflow None
                           (Route.Parsed (Some Memory.noThemePayload))
                           (Memory.start [])))
             (Some Memory.noThemePayload)); reflexivity.
  - eexists _, _. split.
    + eapply (proj1 (proj2 (proj2 (route_response Memory.workflow None
                                     (Route.Parsed (Some Memory.goodPayload))
                                     (Memory.start [Memory.uuid]))))
                (Some Memory.goodPayload) Memory.goodRequest);
        [reflexivity|reflexivity|vm_compute; reflexivity].
    + reflexivity.
  - eexists.
    eapply (proj1 (proj2 (proj2 (proj2 (route_response Memory.workflow None
                                          (Route.Parsed (Some Memory.goodPayload))
                                          (Memory.start [])))))
              (Some Memory.goodPayload) Memory.goodRequest (Rejected 0%N));
      [reflexivity|reflexivity|vm_compute; reflexivity].
  - destruct (proj2 (proj2 (proj2 (proj2 (proj2
                (route_response Memory.workflow None
                   (Route.Parsed (Some Memory.goodPayload))
                   (Memory.start [Memory.uuid])))))))
      as (raw & request & result & Hc & Hv & Hr).
    + vm_compute. reflexivity.
    + exists raw, request, result. split; [exact Hc|]. split; [exact Hv|].
      injection Hc as <-. vm_compute in Hv. injection Hv as <-.
      vm_compute in Hr. injection Hr as <-. reflexivity.
Defined.

(** ** The key-value repository *)

Lemma save_unfold {S : Type} (stringify : DraftProps.t -> jsstring)
  (this : KvDraftRepository.t S) (d : PostDraft.t) (s : S) :
  KvDraftRepository.save stringify this d s =
  match PostDraft.id d with
  | Some id =>
      if truthy id
      then
        KVNamespace.put (KvDraftRepository.kv this) (KvDraftRepository.key id)
          (stringify (PostDraft.toJSON d)) (KvDraftRepository.ttlSeconds this) s
      else (Threw (Error KvDraftRepository.missingIdMessage), s)
  | None => (Threw (Error KvDraftRepository.missingIdMessage), s)
  end.
Proof.
  unfold KvDraftRepository.save, PostDraft.id. rewrite toJSON_props.
  destruct (DraftProps.id (PostDraft.props d)) as [id|]; [|reflexivity].
  destruct (truthy id); reflexivity.
Qed.

(** X6.  [KvDraftRepository.save].  A draft without an id, and also one
    whose id is the empty string, is refused with the error about the
    missing id, and nothing is put.  Any other draft is put once, under
    [draft:] followed by its id, with the serialised record as value and
    the repository's time to live, and the outcome of [put] is the outcome
    of [save].  Different ids give different keys, and a repository made
    without a time to live keeps drafts for 604800 seconds, seven days. *)
Theorem kv_save {S : Type} (stringify : DraftProps.t -> jsstring)
  (kv : KVNamespace.t S) (ttl : option Z) (d : PostDraft.t) (s : S) :
  let this := KvDraftRepository.make kv ttl in
  (PostDraft.id d = None \/ PostDraft.id d = Some [] ->
   refusedBy KvDraftRepository.missingIdMessage
     (KvDraftRepository.save stringify this d s) s) /\
  (forall id,
     PostDraft.id d = Some id -> id <> [] ->
     KvDraftRepository.save stringify this d s =
       KVNamespace.put kv (lit "draft:" ++ id) (stringify (PostDraft.toJSON d))
         (match ttl with Some seconds => seconds | None => 604800%Z end) s) /\
  (forall a b, KvDraftRepository.key a = KvDraftRepository.key b -> a = b).
Proof.
  cbv zeta. split; [|split].
  - intros H. unfold refusedBy. rewrite save_unfold.
    destruct H as [-> | ->]; reflexivity.
  - intros id Hid Hne. rewrite save_unfold, Hid.
    apply truthy_true in Hne. rewrite Hne. destruct ttl; reflexivity.
  - intros a b H. unfold KvDraftRepository.key in H.
    exact (app_inv_head _ _ _ H).
Qed.

(** The in-memory store: a draft without id is refused, an identified one
    is stored under its key for seven days. *)
Lemma kv_save_witness :
  let created :=
    PostDraft.construct Fakes.normalInput (lit "spring sneaker") (lit "kind")
      (Some [lit "a"; lit "b"]) (Date.mk (lit "2025-01-01T00:00:00.000Z")) in
  refusedBy KvDraftRepository.missingIdMessage
    (KvDraftRepository.save Memory.stringify
       (KvDraftRepository.make Memory.kv None) created (Memory.start []))
    (Memory.start []) /\
  Memory.store
    (snd (KvDraftRepository.save Memory.stringify
            (KvDraftRepository.make Memory.kv None)
            (PostDraft.assignId created Memory.uuid) (Memory.start []))) =
    [(lit "draft:" ++ Memory.uuid,
      (Memory.stringify
         (PostDraft.toJSON (PostDraft.assignId created Memory.uuid)),
       604800%Z))].
Proof.
  intros created. split.
  - apply (proj1 (kv_save Memory.stringify Memory.kv None created
                    (Memory.start []))).
    left. reflexivity.
  - rewrite (proj1 (proj2 (kv_save Memory.stringify Memory.kv None
                             (PostDraft.assignId created Memory.uuid)
                             (Memory.start [])))
               Memory.uuid eq_refl).
    + reflexivity.
    + vm_compute. discriminate.
Defined.

(** X7.  The use case on the key-value repository with an id provider
    that hands out the empty string: the input is valid and the clock and
    the provider have answered, yet [execute] fails with the error about
    the missing id, in the state the provider left: nothing was put. *)
Theorem execute_empty_id {S : Type} (stringify : DraftProps.t -> jsstring)
  (kv : KVNamespace.t S) (ttl : option Z) (idProvider : IdProvider.t S)
  (clock : DraftClock.t S) (input : CreateDraftInput.t) (s s1 s2 : S)
  (t : Date.t) :
  trim (CreateDraftInput.theme input) <> [] ->
  trim (CreateDraftInput.brandVoice input) <> [] ->
  List.length
    (List.filter truthy (List.map trim (CreateDraftInput.hashtags input))) <=
    25 ->
  DraftClock.now clock s = (Returned t, s1) ->
  IdProvider.next idProvider s1 = (Returned [], s2) ->
  CreateDraftUseCase.execute
    (CreateDraftUseCase.mk
       (KvDraftRepository.port stringify (KvDraftRepository.make kv ttl))
       idProvider clock)
    input s =
  (Threw (Error KvDraftRepository.missingIdMessage), s2).
Proof.
  intros Ht Hv Hh Hn Hi.
  unfold CreateDraftUseCase.execute, bind.
  cbn [CreateDraftUseCase.clock CreateDraftUseCase.idProvider
       CreateDraftUseCase.repository KvDraftRepository.port
       DraftRepository.save].
  rewrite (create_accepts (CreateDraftInput.widen input) clock s s1 t Ht Hv).
  - rewrite Hi, save_unfold. reflexivity.
  - simpl. apply Nat.ltb_ge. exact Hh.
  - exact Hn.
Qed.

Lemma execute_empty_id_witness :
  CreateDraftUseCase.execute
    (CreateDraftUseCase.mk
       (KvDraftRepository.port Memory.stringify
          (KvDraftRepository.make Memory.kv None))
       (UuidProvider.port Memory.randomUUID) Memory.clock)
    Fakes.sneakerInput (Memory.start [[]]) =
  (Threw (Error KvDraftRepository.missingIdMessage), Memory.start []).
Proof.
  apply (execute_empty_id Memory.stringify Memory.kv None
           (UuidProvider.port Memory.randomUUID) Memory.clock
           Fakes.sneakerInput (Memory.start [[]]) (Memory.start [[]])
           (Memory.start [])
           (Date.mk (lit "2025-01-01T00:00:00.000Z"))).
  - vm_compute. discriminate.
  - vm_compute. discriminate.
  - vm_compute. lia.
  - reflexivity.
  - reflexivity.
Defined.

(** ** What the rule-based generator writes *)

Lemma trimStart_nil (s : jsstring) :
  trimStart s = [] -> forall c, In c s -> isWhiteSpace c = true.
Proof.
  induction s as [|x s IH]; simpl; [intros _ c []|].
  destruct (isWhiteSpace x) eqn:E; [|discriminate].
  intros H c [<-|Hc]; [exact E|exact (IH H c Hc)].
Qed.

Lemma trim_nil (s : jsstring) :
  trim s = [] -> forall c, In c s -> isWhiteSpace c = true.
Proof.
  unfold trim. destruct (trimStart s) as [|c r] eqn:E.
  - intros _. now apply trimStart_nil.
  - rewrite (trimEnd_cons c r (trimStart_head _ _ _ E)). discriminate.
Qed.

Lemma trimStart_trim (s : jsstring) : trimStart (trim s) = trim s.
Proof.
  unfold trim. destruct (trimStart s) as [|c r] eqn:E; [reflexivity|].
  pose proof (trimStart_head _ _ _ E) as Hc.
  rewrite (trimEnd_cons c r Hc). now apply trimStart_keep.
Qed.

Lemma trimStart_app_keep (a : jsstring) (c : N) (b : jsstring) :
  isWhiteSpace c = false -> trimStart (a ++ c :: b) = trimStart a ++ c :: b.
Proof.
  intros Hc. induction a as [|x a IH]; simpl.
  - now rewrite Hc.
  - destruct (isWhiteSpace x); [exact IH|reflexivity].
Qed.

Lemma trim_app_keep (a : jsstring) (c : N) (b : jsstring) (e : N) :
  isWhiteSpace c = false -> isWhiteSpace e = false ->
  trim (a ++ c :: b ++ [e]) = trimStart a ++ c :: b ++ [e].
Proof.
  intros Hc He. unfold trim. rewrite (trimStart_app_keep a c _ Hc).
  change (trimStart a ++ c :: b ++ [e])
    with (trimStart a ++ (c :: b) ++ [e]).
  rewrite app_assoc, trimEnd_snoc, He. reflexivity.
Qed.

Lemma buildCaption_nonempty (input : ContentGenerationInput.t) :
  SimpleContentGenerator.buildCaption input <> [].
Proof.
  unfold SimpleContentGenerator.buildCaption. cbv zeta. intros H.
  assert (isWhiteSpace 12434%N = true) as Hw; [|discriminate Hw].
  apply (trim_nil _ H). apply in_or_app. right. apply in_or_app. right.
  left. reflexivity.
Qed.

Lemma buildCaption_trimmed (input : ContentGenerationInput.t) :
  trim (SimpleContentGenerator.buildCaption input) =
  SimpleContentGenerator.buildCaption input.
Proof. unfold SimpleContentGenerator.buildCaption. apply trim_idem. Qed.

Lemma buildAltText_trim (input : ContentGenerationInput.t) :
  trim (SimpleContentGenerator.buildAltText input) =
  trimStart (ContentGenerationInput.theme input) ++
  SimpleContentGenerator.woHyougenSuruGazou.
Proof.
  unfold SimpleContentGenerator.buildAltText,
    SimpleContentGenerator.woHyougenSuruGazou.
  apply (trim_app_keep _ 12434%N [34920; 29694; 12377; 12427; 30011]%N
           20687%N); reflexivity.
Qed.

Lemma instagram_kept (tags : list jsstring) :
  lit "instagram" ∈ tags ->
  In (lit "instagram") (List.filter truthy (List.map trim tags)).
Proof.
  intros H. apply List.filter_In. split; [|reflexivity].
  change (lit "instagram") with (trim (lit "instagram")) at 1.
  apply List.in_map. now apply list_elem_of_In.
Qed.

Lemma StringSet_add_iff (x y : jsstring) (s : list jsstring) :
  y ∈ StringSet.add x s <-> y = x \/ y ∈ s.
Proof.
  unfold StringSet.add. destruct (decide (x ∈ s)) as [Hx|Hx].
  - split; [now right|]. intros [->|H]; assumption.
  - rewrite elem_of_app, list_elem_of_singleton. tauto.
Qed.

Lemma StringSet_add_head (x y : jsstring) (s : list jsstring) :
  head (StringSet.add x (y :: s)) = Some y.
Proof. unfold StringSet.add. destruct (decide (x ∈ y :: s)); reflexivity. Qed.

Section GeneratorText.

Variable toLowerCase : jsstring -> jsstring.

Lemma buildHashtags_within_limit (input : ContentGenerationInput.t) :
  PostDraft.overLimit
    (PostDraft.normalizeHashtags
       (Some (SimpleContentGenerator.buildHashtags toLowerCase input))) =
  false.
Proof.
  destruct (buildHashtags_spec toLowerCase input) as (_ & Hlen & _).
  simpl. apply Nat.ltb_ge.
  pose proof (filter_length_le' truthy
                (List.map trim
                   (SimpleContentGenerator.buildHashtags toLowerCase input))).
  rewrite length_map in *. cbv zeta in Hlen. lia.
Qed.

(** X8.  The texts of the rule-based generator, as the factory stores
    them.  The caption is never empty and has no surrounding white space,
    so the factory's trimming leaves it as generated.  The alt text is the
    theme followed by the fixed phrase; trimming removes the white space
    in front of the theme and nothing else, so a theme that is already
    trimmed leaves the alt text as generated.  The tag [instagram] is
    among the hashtags that the factory keeps. *)
Theorem generated_text_kept (input : ContentGenerationInput.t) :
  let caption := SimpleContentGenerator.buildCaption input in
  let altText := SimpleContentGenerator.buildAltText input in
  let hashtags := SimpleContentGenerator.buildHashtags toLowerCase input in
  caption <> [] /\ trim caption = caption /\
  trim altText =
    trimStart (ContentGenerationInput.theme input) ++
    SimpleContentGenerator.woHyougenSuruGazou /\
  trim altText <> [] /\
  (trimmed (ContentGenerationInput.theme input) -> trim altText = altText) /\
  In (lit "instagram") (List.filter truthy (List.map trim hashtags)).
Proof.
  cbv zeta.
  split; [apply buildCaption_nonempty|].
  split; [apply buildCaption_trimmed|].
  split; [apply buildAltText_trim|].
  split.
  { rewrite buildAltText_trim.
    unfold SimpleContentGenerator.woHyougenSuruGazou.
    intros H. apply app_eq_nil in H as [_ H]. discriminate. }
  split.
  { intros Ht. rewrite buildAltText_trim.
    unfold SimpleContentGenerator.buildAltText. f_equal.
    unfold trimmed in Ht. rewrite <- Ht. apply trimStart_trim. }
  apply instagram_kept.
  exact (proj2 (proj2 (buildHashtags_spec toLowerCase input))).
Qed.

(** X9.  The hashtags of the rule-based generator are the tag of the
    theme, the tag of the product when a product is given, and
    [instagram], and nothing else; the tag of the theme comes first.  A
    tag is the text in lower case with all its white space removed. *)
Theorem buildHashtags_members (input : ContentGenerationInput.t) :
  let tags := SimpleContentGenerator.buildHashtags toLowerCase input in
  let themeTag :=
    toLowerCase (removeWhiteSpace (ContentGenerationInput.theme input)) in
  head tags = Some themeTag /\
  forall x,
    x ∈ tags <->
    x = themeTag \/
    (exists p,
       ContentGenerationInput.product input = Some p /\ p <> [] /\
       x = toLowerCase (removeWhiteSpace p)) \/
    x = lit "instagram".
Proof.
  cbv zeta. unfold SimpleContentGenerator.buildHashtags. cbv zeta.
  change (StringSet.add
            (toLowerCase
               (removeWhiteSpace (ContentGenerationInput.theme input)))
            StringSet.empty)
    with [toLowerCase (removeWhiteSpace (ContentGenerationInput.theme input))].
  split.
  - destruct (ContentGenerationInput.product input) as [p|];
      [destruct (truthy p)|].
    + unfold StringSet.add at 2.
      destruct (decide (_ ∈ [_])); apply StringSet_add_head.
    + apply StringSet_add_head.
    + apply StringSet_add_head.
  - intros x. rewrite StringSet_add_iff.
    destruct (ContentGenerationInput.product input) as [p|].
    + destruct (truthy p) eqn:Ep.
      * rewrite StringSet_add_iff, list_elem_of_singleton.
        apply truthy_true in Ep. split.
        -- intros [H|[H|H]]; eauto 10.
        -- intros [H|[(q & Hq & _ & H)|H]]; auto.
           injection Hq as <-. auto.
      * rewrite list_elem_of_singleton. apply truthy_false in Ep. split.
        -- intros [H|H]; auto.
        -- intros [H|[(q & Hq & Hne & H)|H]]; auto.
           injection Hq as <-. contradiction.
    + rewrite list_elem_of_singleton. split.
      * intros [H|H]; auto.
      * intros [H|[(q & Hq & _)|H]]; auto. discriminate.
Qed.

End GeneratorText.

(** ** The wired worker *)

Section Deployed.

Context {S : Type}.
Variable toLowerCase : jsstring -> jsstring.
Variable stringify : DraftProps.t -> jsstring.
Variable randomUUID : SE S jsstring.
Variable systemClock : DraftClock.t S.

(** The wired workflow on a request whose theme and brand voice are not
    blank: the clock, the id, the put, the send, and no other branch. *)
Lemma deployed_run_unfold (env : WorkerBindings.t S)
  (request : DraftGenerationRequest.t) (s : S) :
  trim (DraftGenerationRequest.theme request) <> [] ->
  trim (DraftGenerationRequest.brandVoice request) <> [] ->
  DraftGenerationWorkflow.run
    (Wiring.createDraftGenerationWorkflow toLowerCase stringify randomUUID
       systemClock env) request s =
  match DraftClock.now systemClock s with
  | (Threw e, s1) => (Threw e, s1)
  | (Returned t, s1) =>
      match randomUUID s1 with
      | (Threw e, s2) => (Threw e, s2)
      | (Returned id, s2) =>
          let d := Wiring.draftOf toLowerCase request t id in
          if truthy id
          then
            match
              KVNamespace.put (WorkerBindings.KV env)
                (KvDraftRepository.key id) (stringify (PostDraft.toJSON d))
                KvDraftRepository.DEFAULT_TTL_SECONDS s2
            with
            | (Threw e, s3) => (Threw e, s3)
            | (Returned _, s3) =>
                match WorkerBindings.IMAGE_QUEUE env with
                | None =>
                    (Returned (CreateDraftUseCase.summary (PostDraft.toJSON d)),
                     s3)
                | Some q =>
                    match
                      Queue.send q
                        {| WorkerQueuePayload.type :=
                             WorkerQueuePayload.generate_image;
                           WorkerQueuePayload.draftId := id;
                           WorkerQueuePayload.prompt :=
                             DraftGenerationWorkflow.imagePromptOf request |}
                        s3
                    with
                    | (Threw e, s4) => (Threw e, s4)
                    | (Returned _, s4) =>
                        (Returned
                           (CreateDraftUseCase.summary (PostDraft.toJSON d)),
                         s4)
                    end
                end
            end
          else (Threw (Error KvDraftRepository.missingIdMessage), s2)
      end
  end.
Proof.
  intros Ht Hv. apply truthy_true in Ht, Hv.
  unfold DraftGenerationWorkflow.run, Wiring.createDraftGenerationWorkflow,
    bind.
  cbn [DraftGenerationWorkflow.contentGenerator
       DraftGenerationWorkflow.imageScheduler
       DraftGenerationWorkflow.createDraft SimpleContentGenerator.port
       ContentGenerator.generate SimpleContentGenerator.generate ret].
  unfold SimpleContentGenerator.generate, ret.
  unfold CreateDraftUseCase.execute, bind.
  cbn [CreateDraftUseCase.clock CreateDraftUseCase.idProvider
       CreateDraftUseCase.repository KvDraftRepository.port
       DraftRepository.save UuidProvider.port IdProvider.next
       UuidProvider.next].
  rewrite create_unfold.
  cbn [CreateDraftInput.widen DraftGenerationWorkflow.draftInput
       DraftInput.theme DraftInput.brandVoice DraftInput.hashtags
       CreateDraftInput.theme CreateDraftInput.brandVoice
       CreateDraftInput.hashtags GeneratedContent.hashtags].
  rewrite Ht, Hv, buildHashtags_within_limit. cbn [negb].
  destruct (DraftClock.now systemClock s) as [[t|e] s1]; cbv beta iota;
    [|reflexivity].
  unfold UuidProvider.next, ret.
  destruct (randomUUID s1) as [[id|e] s2]; cbv beta iota; [|reflexivity].
  rewrite save_unfold.
  change (PostDraft.id (PostDraft.assignId ?d id)) with (Some id).
  cbv beta iota zeta.
  destruct (truthy id); [|reflexivity].
  unfold KvDraftRepository.make. cbn [KvDraftRepository.kv
    KvDraftRepository.ttlSeconds nullish].
  match goal with
  | |- context [KVNamespace.put ?k ?a ?b ?c ?d] =>
      change (KVNamespace.put k a b c d)
        with (KVNamespace.put (WorkerBindings.KV env)
                (KvDraftRepository.key id)
                (stringify
                   (PostDraft.toJSON
                      (Wiring.draftOf toLowerCase request t id)))
                KvDraftRepository.DEFAULT_TTL_SECONDS s2)
  end.
  destruct (KVNamespace.put _ _ _ _ s2) as [[[]|e] s3]; cbv beta iota;
    [|reflexivity].
  unfold QueueImageScheduler.port, QueueImageScheduler.schedule, bind, ret.
  cbn [ImageScheduler.schedule QueueImageScheduler.queue].
  destruct (WorkerBindings.IMAGE_QUEUE env) as [q|]; [|reflexivity].
  unfold QueueImageScheduler.message. cbn [ScheduleInput.draftId
    ScheduleInput.prompt].
  change (DraftSummary.id
            (CreateDraftUseCase.summary (PostDraft.toJSON (PostDraft.assignId ?d id))))
    with id.
  destruct (Queue.send q _ s3) as [[[]|e] s4]; reflexivity.
Qed.

End Deployed.

Section DeployedProperties.

Context {S : Type}.
Variable toLowerCase : jsstring -> jsstring.
Variable stringify : DraftProps.t -> jsstring.
Variable randomUUID : SE S jsstring.
Variable systemClock : DraftClock.t S.

(** The summary of the draft the wired workflow saves. *)
Lemma deployed_summary (request : DraftGenerationRequest.t) (t : Date.t)
  (id : jsstring) :
  CreateDraftUseCase.summary
    (PostDraft.toJSON (Wiring.draftOf toLowerCase request t id)) =
  {| DraftSummary.id := id;
     DraftSummary.status := draft;
     DraftSummary.caption :=
       SimpleContentGenerator.buildCaption
         (DraftGenerationWorkflow.generationInput request);
     DraftSummary.hashtags :=
       List.filter truthy
         (List.map trim
            (SimpleContentGenerator.buildHashtags toLowerCase
               (DraftGenerationWorkflow.generationInput request)));
     DraftSummary.altText :=
       trimStart (DraftGenerationRequest.theme request) ++
       SimpleContentGenerator.woHyougenSuruGazou;
     DraftSummary.createdAt := Date.toISOString t |}.
Proof.
  unfold CreateDraftUseCase.summary, Wiring.draftOf, Wiring.generated.
  cbn [PostDraft.toJSON PostDraft.assignId PostDraft.spreadWithId
       PostDraft.construct PostDraft.props DraftProps.id DraftProps.status
       DraftProps.caption DraftProps.hashtags DraftProps.altText
       DraftProps.createdAt CreateDraftUseCase.nonNull nullish trim_opt
       option_map CreateDraftInput.widen DraftGenerationWorkflow.draftInput
       DraftInput.caption DraftInput.altText DraftInput.hashtags
       CreateDraftInput.caption CreateDraftInput.altText
       CreateDraftInput.hashtags GeneratedContent.caption
       GeneratedContent.altText GeneratedContent.hashtags
       PostDraft.normalizeHashtags].
  rewrite buildCaption_trimmed, buildAltText_trim. reflexivity.
Qed.

(** The wired workflow returns when its four ports do. *)
Lemma deployed_run_returns (env : WorkerBindings.t S)
  (request : DraftGenerationRequest.t) (s s1 s2 s3 s4 : S) (t : Date.t)
  (id : jsstring) :
  trim (DraftGenerationRequest.theme request) <> [] ->
  trim (DraftGenerationRequest.brandVoice request) <> [] ->
  DraftClock.now systemClock s = (Returned t, s1) ->
  randomUUID s1 = (Returned id, s2) ->
  id <> [] ->
  KVNamespace.put (WorkerBindings.KV env) (lit "draft:" ++ id)
    (stringify (PostDraft.toJSON (Wiring.draftOf toLowerCase request t id)))
    604800%Z s2 = (Returned tt, s3) ->
  match WorkerBindings.IMAGE_QUEUE env with
  | None => s4 = s3
  | Some q =>
      Queue.send q
        {| WorkerQueuePayload.type := WorkerQueuePayload.generate_image;
           WorkerQueuePayload.draftId := id;
           WorkerQueuePayload.prompt :=
             DraftGenerationWorkflow.imagePromptOf request |} s3 =
        (Returned tt, s4)
  end ->
  DraftGenerationWorkflow.run
    (Wiring.createDraftGenerationWorkflow toLowerCase stringify randomUUID
       systemClock env) request s =
  (Returned
     (CreateDraftUseCase.summary
        (PostDraft.toJSON (Wiring.draftOf toLowerCase request t id))),
   s4).
Proof.
  intros Ht Hv Hn Hi Hne Hp Hq.
  rewrite (deployed_run_unfold _ _ _ _ env request s Ht Hv), Hn, Hi.
  cbv zeta. apply truthy_true in Hne. rewrite Hne.
  change (KvDraftRepository.key id) with (lit "draft:" ++ id).
  change KvDraftRepository.DEFAULT_TTL_SECONDS with 604800%Z.
  rewrite Hp.
  destruct (WorkerBindings.IMAGE_QUEUE env) as [q|].
  - rewrite Hq. reflexivity.
  - now subst.
Qed.

(** X10.  The worker as [createDraftGenerationWorkflow] wires it, on a
    request whose theme and brand voice are not blank.  When the clock
    gives the time, [randomUUID] gives a non-empty id, the put of the
    record under [draft:] and the id with a time to live of 604800 seconds
    completes, and the image queue is absent or its [send] of the
    [generate_image] message for that id completes, then [run] returns the
    summary with that id, the status [draft], the generated caption, the
    generated hashtags without empty ones, [instagram] among them, the
    alt text made of the theme and the fixed phrase, and the time of the
    clock.  No rule of the aggregate stands in the way. *)
Theorem deployed_run_success (env : WorkerBindings.t S)
  (request : DraftGenerationRequest.t) (s s1 s2 s3 s4 : S) (t : Date.t)
  (id : jsstring) :
  trim (DraftGenerationRequest.theme request) <> [] ->
  trim (DraftGenerationRequest.brandVoice request) <> [] ->
  DraftClock.now systemClock s = (Returned t, s1) ->
  randomUUID s1 = (Returned id, s2) ->
  id <> [] ->
  KVNamespace.put (WorkerBindings.KV env) (lit "draft:" ++ id)
    (stringify (PostDraft.toJSON (Wiring.draftOf toLowerCase request t id)))
    604800%Z s2 = (Returned tt, s3) ->
  match WorkerBindings.IMAGE_QUEUE env with
  | None => s4 = s3
  | Some q =>
      Queue.send q
        {| WorkerQueuePayload.type := WorkerQueuePayload.generate_image;
           WorkerQueuePayload.draftId := id;
           WorkerQueuePayload.prompt :=
             DraftGenerationWorkflow.imagePromptOf request |} s3 =
        (Returned tt, s4)
  end ->
  let hashtags :=
    List.filter truthy
      (List.map trim
         (SimpleContentGenerator.buildHashtags toLowerCase
            (DraftGenerationWorkflow.generationInput request))) in
  DraftGenerationWorkflow.run
    (Wiring.createDraftGenerationWorkflow toLowerCase stringify randomUUID
       systemClock env) request s =
  (Returned
     {| DraftSummary.id := id;
        DraftSummary.status := draft;
        DraftSummary.caption :=
          SimpleContentGenerator.buildCaption
            (DraftGenerationWorkflow.generationInput request);
        DraftSummary.hashtags := hashtags;
        DraftSummary.altText :=
          trimStart (DraftGenerationRequest.theme request) ++
          SimpleContentGenerator.woHyougenSuruGazou;
        DraftSummary.createdAt := Date.toISOString t |},
   s4) /\
  In (lit "instagram") hashtags /\
  PostDraft.id (Wiring.draftOf toLowerCase request t id) = Some id /\
  PostDraft.theme (Wiring.draftOf toLowerCase request t id) =
    trim (DraftGenerationRequest.theme request).
Proof.
  intros Ht Hv Hn Hi Hne Hp Hq hashtags.
  rewrite (deployed_run_returns env request s s1 s2 s3 s4 t id Ht Hv Hn Hi Hne
             Hp Hq), deployed_summary.
  split; [reflexivity|]. split; [|split; reflexivity].
  apply instagram_kept.
  exact (proj2 (proj2 (buildHashtags_spec toLowerCase _))).
Qed.

(** X11.  When the wired worker fails on a request whose theme and brand
    voice are not blank, the failure is one of five: the clock threw, the
    id generator threw, the id generator gave the empty string and the
    repository refused the draft, the put threw, or the send to the image
    queue threw.  Each leaves the state the failing step left.  The
    worker never fails over the hashtag limit or over the theme or the
    brand voice of such a request. *)
Theorem deployed_run_failure (env : WorkerBindings.t S)
  (request : DraftGenerationRequest.t) (s s' : S) (e : Thrown) :
  trim (DraftGenerationRequest.theme request) <> [] ->
  trim (DraftGenerationRequest.brandVoice request) <> [] ->
  DraftGenerationWorkflow.run
    (Wiring.createDraftGenerationWorkflow toLowerCase stringify randomUUID
       systemClock env) request s = (Threw e, s') ->
  DraftClock.now systemClock s = (Threw e, s') \/
  exists t s1,
    DraftClock.now systemClock s = (Returned t, s1) /\
    (randomUUID s1 = (Threw e, s') \/
     (randomUUID s1 = (Returned [], s') /\
      e = Error KvDraftRepository.missingIdMessage) \/
     exists id s2,
       randomUUID s1 = (Returned id, s2) /\ id <> [] /\
       let put :=
         KVNamespace.put (WorkerBindings.KV env) (lit "draft:" ++ id)
           (stringify
              (PostDraft.toJSON (Wiring.draftOf toLowerCase request t id)))
           604800%Z s2 in
       (put = (Threw e, s') \/
        exists s3 q,
          put = (Returned tt, s3) /\
          WorkerBindings.IMAGE_QUEUE env = Some q /\
          Queue.send q
            {| WorkerQueuePayload.type := WorkerQueuePayload.generate_image;
               WorkerQueuePayload.draftId := id;
               WorkerQueuePayload.prompt :=
                 DraftGenerationWorkflow.imagePromptOf request |} s3 =
            (Threw e, s'))).
Proof.
  intros Ht Hv. rewrite (deployed_run_unfold _ _ _ _ env request s Ht Hv).
  destruct (DraftClock.now systemClock s) as [[t|e0] s1];
    [|intros H; injection H as <- <-; left; reflexivity].
  intros H. right. exists t, s1. split; [reflexivity|].
  destruct (randomUUID s1) as [[id|e0] s2];
    [|injection H as <- <-; left; reflexivity].
  cbv zeta in H. destruct id as [|c id].
  { simpl in H. injection H as <- <-. right. left. now split. }
  simpl truthy in H. cbv iota in H. right. right.
  exists (c :: id), s2. split; [reflexivity|]. split; [discriminate|].
  cbv zeta.
  change (lit "draft:" ++ c :: id) with (KvDraftRepository.key (c :: id)).
  change 604800%Z with KvDraftRepository.DEFAULT_TTL_SECONDS.
  destruct (KVNamespace.put _ _ _ _ s2) as [[[]|e0] s3];
    [|injection H as <- <-; left; reflexivity].
  right. destruct (WorkerBindings.IMAGE_QUEUE env) as [q|]; [|discriminate].
  exists s3, q. split; [reflexivity|]. split; [reflexivity|].
  destruct (Queue.send q _ s3) as [[[]|e0] s4]; [discriminate|].
  injection H as <- <-. reflexivity.
Qed.

End DeployedProperties.

(** The in-memory worker on the good request, with a queue. *)
Lemma deployed_run_success_witness :
  exists result s4,
    DraftGenerationWorkflow.run (Memory.workflow (Some Memory.queue))
      Memory.goodRequest (Memory.start [Memory.uuid]) = (Returned result, s4) /\
    DraftSummary.id result = Memory.uuid /\
    In (lit "instagram") (DraftSummary.hashtags result) /\
    List.length (Memory.store s4) = 1 /\ List.length (Memory.sent s4) = 1.
Proof.
  pose (t := Date.mk (lit "2025-01-01T00:00:00.000Z")).
  pose (s3 :=
          snd (KVNamespace.put Memory.kv (lit "draft:" ++ Memory.uuid)
                 (Memory.stringify
                    (PostDraft.toJSON
                       (Wiring.draftOf Fakes.asciiLower Memory.goodRequest t
                          Memory.uuid)))
                 604800%Z (Memory.start []))).
  pose (s4 :=
          snd (Queue.send Memory.queue
                 {| WorkerQueuePayload.type :=
                      WorkerQueuePayload.generate_image;
                    WorkerQueuePayload.draftId := Memory.uuid;
                    WorkerQueuePayload.prompt :=
                      DraftGenerationWorkflow.imagePromptOf Memory.goodRequest |}
                 s3)).
  assert (trim (DraftGenerationRequest.theme Memory.goodRequest) <> []) as Ht
    by (vm_compute; discriminate).
  assert (trim (DraftGenerationRequest.brandVoice Memory.goodRequest) <> [])
    as Hv by (vm_compute; discriminate).
  assert (Memory.uuid <> []) as Hne by (vm_compute; discriminate).
  destruct (deployed_run_success Fakes.asciiLower Memory.stringify
              Memory.randomUUID Memory.clock (Memory.env (Some Memory.queue))
              Memory.goodRequest (Memory.start [Memory.uuid])
              (Memory.start [Memory.uuid]) (Memory.start []) s3 s4 t
              Memory.uuid Ht Hv eq_refl eq_refl Hne eq_refl eq_refl)
    as (Hrun & Hin & _).
  eexists _, s4. split; [exact Hrun|].
  split; [reflexivity|]. split; [exact Hin|]. split; reflexivity.
Defined.

(** The in-memory worker when the id generator has nothing to give. *)
Lemma deployed_run_failure_witness :
  exists t s1,
    DraftClock.now Memory.clock (Memory.start []) = (Returned t, s1) /\
    Memory.randomUUID s1 = (Threw (Rejected 0%N), Memory.start []).
Proof.
  assert (trim (DraftGenerationRequest.theme Memory.goodRequest) <> []) as Ht
    by (vm_compute; discriminate).
  assert (trim (DraftGenerationRequest.brandVoice Memory.goodRequest) <> [])
    as Hv by (vm_compute; discriminate).
  destruct (deployed_run_failure Fakes.asciiLower Memory.stringify
              Memory.randomUUID Memory.clock (Memory.env None)
              Memory.goodRequest (Memory.start []) (Memory.start [])
              (Rejected 0%N) Ht Hv eq_refl)
    as [H|(t & s1 & Hn & H)]; [discriminate H|].
  exists t, s1. split; [exact Hn|].
  injection Hn as _ <-.
  destruct H as [H|[[H _]|(id & s2 & H & _)]];
    [exact H|discriminate H|discriminate H].
Defined.

Lemma form_wire_accepted (values : GenerationFormValues.t) :
  UseDraftGeneration.canSubmit values = true ->
  App.validateDraftGenerationInput
    (Some (Wire.payload (UseDraftGeneration.toRequestPayload values))) =
  App.Ok (UseDraftGeneration.toRequestPayload values).
Proof.
  unfold UseDraftGeneration.canSubmit. rewrite !length_pos_truthy.
  intros H. apply andb_prop in H as [Et Ev].
  apply truthy_true in Et, Ev.
  apply wire_accepted; simpl; try apply trimmed_trim; try assumption;
    apply form_optional_normal.
Qed.

Section EndToEnd.

Context {S : Type}.
Variable toLowerCase : jsstring -> jsstring.
Variable stringify : DraftProps.t -> jsstring.
Variable randomUUID : SE S jsstring.
Variable systemClock : DraftClock.t S.

(** X12.  From the form to the answer.  The values typed in may be
    submitted; the payload built from them is sent to the route of the
    wired worker; the clock, the id generator, the put and the queue, if
    there is one, do their part.  Then the answer is 201, with the
    generated id at the top and in the summary, and the summary holds the
    caption and hashtags generated from the trimmed values, the trimmed
    theme followed by the fixed phrase as alt text, and the time of the
    clock. *)
Theorem form_to_response (env : WorkerBindings.t S)
  (values : GenerationFormValues.t) (s s1 s2 s3 s4 : S) (t : Date.t)
  (id : jsstring) :
  let request := UseDraftGeneration.toRequestPayload values in
  UseDraftGeneration.canSubmit values = true ->
  DraftClock.now systemClock s = (Returned t, s1) ->
  randomUUID s1 = (Returned id, s2) ->
  id <> [] ->
  KVNamespace.put (WorkerBindings.KV env) (lit "draft:" ++ id)
    (stringify (PostDraft.toJSON (Wiring.draftOf toLowerCase request t id)))
    604800%Z s2 = (Returned tt, s3) ->
  match WorkerBindings.IMAGE_QUEUE env with
  | None => s4 = s3
  | Some q =>
      Queue.send q
        {| WorkerQueuePayload.type := WorkerQueuePayload.generate_image;
           WorkerQueuePayload.draftId := id;
           WorkerQueuePayload.prompt :=
             DraftGenerationWorkflow.imagePromptOf request |} s3 =
        (Returned tt, s4)
  end ->
  Route.generate
    (Wiring.createDraftGenerationWorkflow toLowerCase stringify randomUUID
       systemClock)
    env (Wire.sent request) s =
  ({| Route.body :=
        Route.GeneratedBody id
          {| DraftSummary.id := id;
             DraftSummary.status := draft;
             DraftSummary.caption :=
               SimpleContentGenerator.buildCaption
                 (DraftGenerationWorkflow.generationInput request);
             DraftSummary.hashtags :=
               List.filter truthy
                 (List.map trim
                    (SimpleContentGenerator.buildHashtags toLowerCase
                       (DraftGenerationWorkflow.generationInput request)));
             DraftSummary.altText :=
               trim (GenerationFormValues.theme values) ++
               SimpleContentGenerator.woHyougenSuruGazou;
             DraftSummary.createdAt := Date.toISOString t |};
      Route.status := 201 |}, s4).
Proof.
  intros request Hc Hn Hi Hne Hp Hq. subst request.
  unfold Route.generate, Route.readJson, Wire.sent. cbv beta iota.
  rewrite (form_wire_accepted values Hc). cbv beta iota zeta.
  assert (trim (DraftGenerationRequest.theme
                  (UseDraftGeneration.toRequestPayload values)) <> [] /\
          trim (DraftGenerationRequest.brandVoice
                  (UseDraftGeneration.toRequestPayload values)) <> [])
    as [Ht Hv].
  { unfold UseDraftGeneration.canSubmit in Hc.
    rewrite !length_pos_truthy in Hc. apply andb_prop in Hc as [Et Ev].
    apply truthy_true in Et, Ev. simpl.
    rewrite !trim_idem. now split. }
  rewrite (deployed_run_returns toLowerCase stringify randomUUID systemClock
             env _ s s1 s2 s3 s4 t id Ht Hv Hn Hi Hne Hp Hq),
    deployed_summary.
  cbn [UseDraftGeneration.toRequestPayload DraftGenerationRequest.theme].
  rewrite trimStart_trim. reflexivity.
Qed.

End EndToEnd.

(** What is typed into the form, through the in-memory worker. *)
Lemma form_to_response_witness :
  exists draft s4,
    Route.generate Memory.workflow None
      (Wire.sent (UseDraftGeneration.toRequestPayload Memory.typed))
      (Memory.start [Memory.uuid]) =
      ({| Route.body := Route.GeneratedBody Memory.uuid draft;
          Route.status := 201 |}, s4) /\
    DraftSummary.id draft = Memory.uuid.
Proof.
  pose (t := Date.mk (lit "2025-01-01T00:00:00.000Z")).
  pose (s3 :=
          snd (KVNamespace.put Memory.kv (lit "draft:" ++ Memory.uuid)
                 (Memory.stringify
                    (PostDraft.toJSON
                       (Wiring.draftOf Fakes.asciiLower
                          (UseDraftGeneration.toRequestPayload Memory.typed) t
                          Memory.uuid)))
                 604800%Z (Memory.start []))).
  assert (Memory.uuid <> []) as Hne by (vm_compute; discriminate).
  eexists _, s3. split.
  - exact (form_to_response Fakes.asciiLower Memory.stringify
             Memory.randomUUID Memory.clock (Memory.env None) Memory.typed
             (Memory.start [Memory.uuid]) (Memory.start [Memory.uuid])
             (Memory.start []) s3 s3 t Memory.uuid eq_refl eq_refl eq_refl Hne
             eq_refl eq_refl).
  - reflexivity.
Defined.

(** ** The drafts the class can make *)




(** X14.  A record read back by the factory.  The supplied fields of the
    record of a created draft, given to [create] again, are accepted as
    soon as the clock answers, and the new draft has the same theme, brand
    voice, product, image prompt, persona, caption, hashtags and alt text:
    the factory's normal form is stable. *)
Theorem record_recreated {S S' : Type} (input : DraftInput.t)
  (clock : DraftClock.t S) (s s' : S) (d : PostDraft.t)
  (clock' : DraftClock.t S') (s1 s1' : S') (t' : Date.t) :
  PostDraft.create input clock s = (Returned d, s') ->
  DraftClock.now clock' s1 = (Returned t', s1') ->
  exists d',
    PostDraft.create (Supplied.asInput (PostDraft.toJSON d)) clock' s1 =
      (Returned d', s1') /\
    Supplied.unchanged (Supplied.asInput (PostDraft.toJSON d))
      (PostDraft.toJSON d') /\
    PostDraft.createdAt d' = Date.toISOString t'.
Proof.
  intros H Hn.
  pose proof (created_record_normal _ _ _ _ _ H) as Hnormal.
  pose proof (construct_unchanged _ t' Hnormal) as Hsame.
  destruct (create_returned _ _ _ _ _ H) as (Ht & Hv & Ho & t & _ & ->).
  eexists. split; [|split; [exact Hsame|reflexivity]].
  apply create_accepts; [| | |exact Hn].
  - cbn [DraftInput.theme Supplied.asInput PostDraft.toJSON
         PostDraft.construct PostDraft.props DraftProps.theme].
    rewrite trim_idem. exact Ht.
  - cbn [DraftInput.brandVoice Supplied.asInput PostDraft.toJSON
         PostDraft.construct PostDraft.props DraftProps.brandVoice].
    rewrite trim_idem. exact Hv.
  - destruct Hsame as (_ & _ & _ & _ & _ & _ & Hh & _).
    simpl in Hh. simpl. rewrite Hh. exact Ho.
Qed.

Lemma record_recreated_witness :
  exists d d',
    PostDraft.create Fakes.paddedInput Fakes.clock Fakes.start =
      (Returned d, Fakes.start) /\
    PostDraft.create (Supplied.asInput (PostDraft.toJSON d)) Memory.clock
      (Memory.start []) = (Returned d', Memory.start []) /\
    PostDraft.theme d' = PostDraft.theme d.
Proof.
  destruct (record_recreated Fakes.paddedInput Fakes.clock Fakes.start
              Fakes.start _ Memory.clock (Memory.start []) (Memory.start [])
              (Date.mk (lit "2025-01-01T00:00:00.000Z")) eq_refl eq_refl)
    as (d' & Hc & Hu & _).
  eexists _, d'. split; [reflexivity|]. split; [exact Hc|].
  exact (proj1 Hu).
Defined.

(** ** One id through a run *)

(** X15.  In one [run] the draft that is saved, the image job that is
    scheduled and the summary that is returned carry one and the same id:
    a scheduled job never refers to a draft other than the one just
    saved. *)
Theorem run_same_id {World : Type} (wf : DraftGenerationWorkflow.t World)
  (input : DraftGenerationRequest.t) (w : World) (l new : list Call)
  (d : PostDraft.t) (si : ScheduleInput.t) :
  Spy.calls
    (after (DraftGenerationWorkflow.run (Spy.workflow wf) input (Spy.mk w l))) =
    l ++ new ->
  In (CallSave d) new ->
  In (CallSchedule si) new ->
  PostDraft.id d = Some (ScheduleInput.draftId si) /\
  forall result st,
    DraftGenerationWorkflow.run (Spy.workflow wf) input (Spy.mk w l) =
      (Returned result, st) ->
    DraftSummary.id result = ScheduleInput.draftId si.
Proof.
  rewrite run_spied_unfold. cbv zeta.
  destruct (ContentGenerator.generate _ _ w) as [[g|e] w1].
  2:{ simpl. intros H%app_inv_head. subst new.
      intros [Hd|[]]. discriminate. }
  destruct (CreateDraftUseCase.execute _ _ _) as [[result|e] st] eqn:E.
  - destruct (execute_returned _ _ _ _ _ _ E)
      as (created & w1' & id & w2 & w3 & _ & _ & _ & -> & _ & Hid).
    assert (((l ++ [CallGenerate
                      (DraftGenerationWorkflow.generationInput input)]) ++
             [CallNow; CallNext; CallSave (PostDraft.assignId created id)]) ++
            [CallSchedule
               {| ScheduleInput.draftId := DraftSummary.id result;
                  ScheduleInput.prompt :=
                    DraftGenerationWorkflow.imagePromptOf input |}] =
            l ++ new ->
            In (CallSave d) new -> In (CallSchedule si) new ->
            d = PostDraft.assignId created id /\
            si = {| ScheduleInput.draftId := DraftSummary.id result;
                    ScheduleInput.prompt :=
                      DraftGenerationWorkflow.imagePromptOf input |})
      as Hkey.
    { rewrite <- !app_assoc. intros H%app_inv_head.
      subst new. simpl.
      intros [Hd|[Hd|[Hd|[Hd|[Hd|[]]]]]]; try discriminate.
      intros [Hs|[Hs|[Hs|[Hs|[Hs|[]]]]]]; try discriminate.
      injection Hd as <-. injection Hs as <-. now split. }
    destruct (ImageScheduler.schedule _ _ _) as [[?|e] w3']; simpl;
      intros Hc Hd Hs; destruct (Hkey Hc Hd Hs) as [-> ->];
      (split; [simpl; now rewrite Hid|]).
    + intros result' st' H. injection H as <- _. reflexivity.
    + discriminate.
  - destruct (execute_calls (DraftGenerationWorkflow.createDraft wf)
                (DraftGenerationWorkflow.draftInput input g) w1
                (l ++ [CallGenerate
                         (DraftGenerationWorkflow.generationInput input)]))
      as (pre & Hcalls & _ & _ & Hthrow).
    rewrite E in Hcalls, Hthrow. simpl in Hcalls. specialize (Hthrow _ _ eq_refl).
    simpl. rewrite Hcalls, <- app_assoc. intros H%app_inv_head. subst new.
    intros _ [Hs|Hs]; [discriminate|]. exfalso.
    assert (In (CallSchedule si) (List.filter Spy.isSchedule pre)) as Hf
      by (apply List.filter_In; split; [exact Hs|reflexivity]).
    rewrite Hthrow in Hf. exact Hf.
Qed.

Lemma run_same_id_witness :
  let d :=
    PostDraft.assignId
      (PostDraft.construct (CreateDraftInput.widen Fakes.sneakerInput)
         (lit "new sneaker") (lit "friendly") (Some [lit "a"; lit "b"])
         (Date.mk (lit "2025-01-01T00:00:00.000Z")))
      (lit "draft-123") in
  PostDraft.id d = Some (ScheduleInput.draftId Fakes.sneakerJob).
Proof.
  intros d.
  assert (In (CallSave d)
            (Spy.calls
               (after
                  (DraftGenerationWorkflow.run
                     (Spy.workflow (Fakes.workflowWith None))
                     Fakes.sneakerRequest (Spy.mk Fakes.start [])))))
    as Hd by (vm_compute; tauto).
  assert (In (CallSchedule Fakes.sneakerJob)
            (Spy.calls
               (after
                  (DraftGenerationWorkflow.run
                     (Spy.workflow (Fakes.workflowWith None))
                     Fakes.sneakerRequest (Spy.mk Fakes.start [])))))
    as Hs by (vm_compute; tauto).
  exact (proj1 (run_same_id (Fakes.workflowWith None) Fakes.sneakerRequest
                  Fakes.start [] _ d Fakes.sneakerJob eq_refl Hd Hs)).
Defined.

(** ** The form *)





(** The generator on the sneaker request, with ASCII lower-casing. *)
Lemma generated_text_kept_witness :
  let input := DraftGenerationWorkflow.generationInput Fakes.sneakerRequest in
  trim (SimpleContentGenerator.buildAltText input) =
    SimpleContentGenerator.buildAltText input /\
  SimpleContentGenerator.buildCaption input <> [].
Proof.
  intros input.
  destruct (generated_text_kept Fakes.asciiLower input)
    as (Hc & _ & _ & _ & Ha & _).
  split; [|exact Hc]. apply Ha. reflexivity.
Defined.

Lemma buildHashtags_members_witness :
  lit "airflex" ∈
    SimpleContentGenerator.buildHashtags Fakes.asciiLower
      (DraftGenerationWorkflow.generationInput Fakes.sneakerRequest).
Proof.
  apply (proj2 (buildHashtags_members Fakes.asciiLower
                  (DraftGenerationWorkflow.generationInput
                     Fakes.sneakerRequest))).
  right. left. exists (lit "AirFlex").
  split; [reflexivity|]. split; [discriminate|reflexivity].
Defined.
